(** * genezio: the self-hosted AWS deployment adapter

    A shallow embedding of [SelfHostedAwsAdapter] and of its
    [GenezioCloudFormationBuilder] (cloudAdapter/selfHostedAwsAdapter.ts),
    followed by the properties of template synthesis, stack convergence and
    endpoint resolution that the specification states about them.

    Conventions of the embedding:
    - a JavaScript string is a [string] (its UTF-8 bytes);
    - a JavaScript object whose key order matters (the template's
      [Resources]) is an association list updated in place or appended to;
    - every call that leaves the process (S3, CloudFormation) or reads the
      file system is a node of a program tree ([Prog]); a [Backend] answers
      each call, and [run] records the exchanged calls and answers;
    - a rejected promise and a thrown exception are both [Rejected]. *)

From Stdlib Require Import String Ascii List ZArith Bool Lia DecimalString.
Import ListNotations.
Local Open Scope list_scope.
Local Open Scope string_scope.

(** ** JavaScript values *)

Module Js.

(** The JSON-like values the template is made of.  [Undefined] is the value
    of an object member that [JSON.stringify] leaves out. *)
#[local] Set Warnings "-register-all".
Inductive value : Type :=
| Undefined
| Str (s : string)
| Num (n : Z)
| Boolean (b : bool)
| Arr (items : list value)
| Obj (members : list (string * value)).

(** [o[k]] *)
Fixpoint get_member (k : string) (ms : list (string * value)) : option value :=
  match ms with
  | [] => None
  | (k', v) :: tl => if String.eqb k' k then Some v else get_member k tl
  end.

(** [o[k] = x] for a key that names an ordinary member: an existing key
    keeps its position, a new key goes last.  Two kinds of keys are outside
    this definition: [__proto__], which an assignment hands to the prototype
    of the object instead of making a member of it, and the keys that are
    array indices, which an object lists before all the others.  The ids the
    adapter gives to its resources all begin with a letter. *)
Fixpoint set_member (k : string) (x : value) (ms : list (string * value))
  : list (string * value) :=
  match ms with
  | [] => [(k, x)]
  | (k', v) :: tl =>
      if String.eqb k' k then (k', x) :: tl else (k', v) :: set_member k x tl
  end.

Definition get (k : string) (v : value) : option value :=
  match v with
  | Obj ms => get_member k ms
  | _ => None
  end.

(** [v.k1.k2...], [None] as soon as a step is missing. *)
Fixpoint get_path (ks : list string) (v : value) : option value :=
  match ks with
  | [] => Some v
  | k :: tl => match get k v with
               | Some v' => get_path tl v'
               | None => None
               end
  end.

(** An optional string as a member value. *)
Definition of_option (o : option string) : value :=
  match o with
  | Some s => Str s
  | None => Undefined
  end.

(** A string interpolated in a template literal: [`${x}`]. *)
Definition interpolate (o : option string) : string :=
  match o with
  | Some s => s
  | None => "undefined"
  end.

(** Errors: the [name] and [message] of a thrown [Error] object. *)
Record JsError : Type := mkJsError { err_name : string; err_message : string }.

Definition Error (message : string) : JsError := mkJsError "Error" message.
Definition TypeError (message : string) : JsError := mkJsError "TypeError" message.

(** *** JSON.stringify *)

Definition hex_digit (n : N) : ascii :=
  match n with
  | 0%N => "0" | 1%N => "1" | 2%N => "2" | 3%N => "3" | 4%N => "4"
  | 5%N => "5" | 6%N => "6" | 7%N => "7" | 8%N => "8" | 9%N => "9"
  | 10%N => "a" | 11%N => "b" | 12%N => "c" | 13%N => "d" | 14%N => "e"
  | _ => "f"
  end%char.

Definition dquote : ascii := ascii_of_N 34.

Definition escape_char (c : ascii) : string :=
  let n := N_of_ascii c in
  if N.eqb n 34 then String "\" (String dquote "")
  else if N.eqb n 92 then "\\"
  else if N.eqb n 8 then "\b"
  else if N.eqb n 12 then "\f"
  else if N.eqb n 10 then "\n"
  else if N.eqb n 13 then "\r"
  else if N.eqb n 9 then "\t"
  else if N.ltb n 32 then
    "\u00" ++ String (hex_digit (N.div n 16)) (String (hex_digit (N.modulo n 16)) "")
  else String c "".

Fixpoint escape (s : string) : string :=
  match s with
  | EmptyString => ""
  | String c tl => escape_char c ++ escape tl
  end.

Definition quote (s : string) : string :=
  String dquote (escape s ++ String dquote "").

Definition number (n : Z) : string := NilZero.string_of_int (Z.to_int n).

Fixpoint stringify (v : value) : string :=
  match v with
  | Undefined => "null"
  | Str s => quote s
  | Num n => number n
  | Boolean true => "true"
  | Boolean false => "false"
  | Arr items => "[" ++ String.concat "," (List.map stringify items) ++ "]"
  | Obj members =>
      let fix go (ms : list (string * value)) : list string :=
        match ms with
        | [] => []
        | (_, Undefined) :: tl => go tl
        | (k, x) :: tl => (quote k ++ ":" ++ stringify x) :: go tl
        end in
      "{" ++ String.concat "," (go members) ++ "}"
  end.

End Js.

Import Js.

(** ** The remote services and the program trees that call them *)

(** A settled promise (or a call that returned or threw). *)
Inductive outcome (A : Type) : Type :=
| Fulfilled (a : A)
| Rejected (e : JsError).
Arguments Fulfilled {A} a.
Arguments Rejected {A} e.

(** The parts of the AWS SDK outputs the adapter reads.  Every member is
    optional in the SDK's types. *)
Record Output : Type := mkOutput
  { OutputKey : option string;
    OutputValue : option string }.

Record Stack : Type := mkStack
  { StackName : option string;
    StackStatus : option string;
    Outputs : option (list Output) }.

Record DescribeStacksCommandOutput : Type := mkDescribeStacksOutput
  { Stacks : option (list Stack) }.

Record HeadObjectCommandOutput : Type := mkHeadObjectOutput
  { head_VersionId : option string }.

Record PutObjectCommandOutput : Type := mkPutObjectOutput
  { put_ETag : option string;
    put_VersionId : option string }.

(** The calls the adapter makes, with the arguments it passes.
    [readFileSync] is local; all the others reach S3 or CloudFormation. *)
Inductive Call : Type :=
| readFileSync (path : string)
| headBucket (Bucket : string)
| CreateBucketCommand (Bucket : string) (LocationConstraint : option string)
| PutBucketVersioningCommand (Bucket : string) (Status : string)
| PutObjectCommand (Body : string) (Bucket : string) (Key : string)
| HeadObjectCommand (Bucket : string) (Key : string)
| DescribeStacksCommand (stackName : string)
| CreateStackCommand (stackName : string) (TemplateBody : string) (Capabilities : list string)
| UpdateStackCommand (stackName : string) (TemplateBody : string) (Capabilities : list string)
| DeleteStackCommand (stackName : string)
| waitUntilStackCreateComplete (maxWaitTime : Z) (stackName : string)
| waitUntilStackUpdateComplete (maxWaitTime : Z) (stackName : string)
| waitUntilStackDeleteComplete (maxWaitTime : Z) (stackName : string).

(** What a call yields when it succeeds. *)
Definition Reply (c : Call) : Type :=
  match c with
  | readFileSync _ => string
  | PutObjectCommand _ _ _ => PutObjectCommandOutput
  | HeadObjectCommand _ _ => HeadObjectCommandOutput
  | DescribeStacksCommand _ => DescribeStacksCommandOutput
  | _ => unit
  end.

(** The classes of calls the claims distinguish. *)
Definition is_remote (c : Call) : bool :=
  match c with
  | readFileSync _ => false
  | _ => true
  end.

Definition is_stack_call (c : Call) : bool :=
  match c with
  | DescribeStacksCommand _
  | CreateStackCommand _ _ _ | UpdateStackCommand _ _ _ | DeleteStackCommand _
  | waitUntilStackCreateComplete _ _ | waitUntilStackUpdateComplete _ _
  | waitUntilStackDeleteComplete _ _ => true
  | _ => false
  end.

(** A stack mutation: create, update or delete. *)
Definition is_mutation (c : Call) : bool :=
  match c with
  | CreateStackCommand _ _ _ | UpdateStackCommand _ _ _ | DeleteStackCommand _ => true
  | _ => false
  end.



(** An asynchronous computation: it returns, throws, or awaits a call and
    goes on with what the call settled to. *)
Inductive Prog (A : Type) : Type :=
| Ret (a : A)
| Throw (e : JsError)
| Await (c : Call) (k : outcome (Reply c) -> Prog A).
Arguments Ret {A} a.
Arguments Throw {A} e.
Arguments Await {A} c k.

Fixpoint bind {A B : Type} (p : Prog A) (f : A -> Prog B) : Prog B :=
  match p with
  | Ret a => f a
  | Throw e => Throw e
  | Await c k => Await c (fun r => bind (k r) f)
  end.

Declare Scope prog_scope.
Delimit Scope prog_scope with prog.
Bind Scope prog_scope with Prog.
Notation "x <- p ;; q" := (bind p (fun x => q))
  (at level 61, p at next level, right associativity) : prog_scope.
Notation "p ;; q" := (bind p (fun _ => q))
  (at level 61, right associativity) : prog_scope.

(** [await client.send(c)]: a rejection is rethrown. *)
Definition send (c : Call) : Prog (Reply c) :=
  Await c (fun r => match r with
                    | Fulfilled a => Ret a
                    | Rejected e => Throw e
                    end).

(** A returned or thrown value as a computation. *)
Definition settle {A : Type} (o : outcome A) : Prog A :=
  match o with
  | Fulfilled a => Ret a
  | Rejected e => Throw e
  end.

(** [for (const x of l) { s = body(x, s) }] *)
Fixpoint for_of {A S : Type} (body : A -> S -> Prog S) (l : list A) (s : S) : Prog S :=
  match l with
  | [] => Ret s
  | x :: tl => bind (body x s) (for_of body tl)
  end.

(** A backend answers every call and moves to its next state. *)
Definition Backend (W : Type) : Type := forall c : Call, W -> outcome (Reply c) * W.

(** One exchanged call with its answer. *)
Record Event : Type := Ev { ev_call : Call; ev_reply : outcome (Reply ev_call) }.

Definition calls (tr : list Event) : list Call := List.map ev_call tr.

Fixpoint run {W A : Type} (b : Backend W) (p : Prog A) (w : W)
  : list Event * outcome A * W :=
  match p with
  | Ret a => ([], Fulfilled a, w)
  | Throw e => ([], Rejected e, w)
  | Await c k =>
      let (r, w1) := b c w in
      let '(tr, o, w2) := run b (k r) w1 in
      (Ev c r :: tr, o, w2)
  end.

(** ** The project model (models/projectConfiguration, cloudAdapter) *)

(** A method of a class: its name, its trigger type (["http"], ["jsonrpc"],
    ["cron"]) and, for a scheduled method, its cron string. *)
Record MethodConfiguration : Type := mkMethod
  { method_name : string;
    method_type : string;
    method_cronString : option string }.

Record ClassConfiguration : Type := mkClass
  { class_path : string;
    class_language : string;
    class_methods : list MethodConfiguration }.

Record ProjectConfiguration : Type := mkProject
  { project_name : string;
    project_region : string;
    project_classes : list ClassConfiguration }.

(** One bundled class handed to the adapter. *)
Record GenezioCloudInput : Type := mkInput
  { input_name : string;
    input_archivePath : string;
    input_filePath : string;
    input_methods : list MethodConfiguration }.

(** What the adapter returns. *)
Record GenezioCloudResultMethod : Type := mkResultMethod
  { result_method_name : string;
    result_method_type : string;
    result_method_cronString : option string;
    result_method_functionUrl : string }.

Record GenezioCloudResultClass : Type := mkResultClass
  { className : string;
    result_methods : list GenezioCloudResultMethod;
    functionUrl : string }.

Record GenezioCloudOutput : Type := mkCloudOutput
  { classes : list GenezioCloudResultClass }.

(** ** GenezioCloudFormationBuilder *)

(** The template object: its keys in insertion order are [Resources],
    [AWSTemplateFormatVersion] and, once built, [Outputs]. *)
Record Template : Type := mkTemplate
  { Resources : list (string * value);
    AWSTemplateFormatVersion : string;
    TemplateOutputs : option value }.

Definition template_value (t : Template) : value :=
  Obj ([("Resources", Obj (Resources t));
        ("AWSTemplateFormatVersion", Str (AWSTemplateFormatVersion t))]
       ++ match TemplateOutputs t with
          | Some o => [("Outputs", o)]
          | None => []
          end)%list.

Record GenezioCloudFormationBuilder : Type := mkBuilder
  { template : Template;
    resourceIds : list string;
    apiGatewayResourceName : string }.

(** Intrinsic functions of the template language. *)
Definition Ref (name : string) : value := Obj [("Ref", Str name)].
Definition GetAtt (name attr : string) : value :=
  Obj [("Fn::GetAtt", Arr [Str name; Str attr])].
Definition Join (sep : string) (parts : list value) : value :=
  Obj [("Fn::Join", Arr [Str sep; Arr parts])].

(** [new GenezioCloudFormationBuilder(apiGatewayResourceName)] *)
Definition newBuilder (apiGatewayResourceName : string) : GenezioCloudFormationBuilder :=
  {| template :=
       {| Resources :=
            [(apiGatewayResourceName,
              Obj [("Type", Str "AWS::ApiGatewayV2::Api");
                   ("Properties",
                    Obj [("Name", Str apiGatewayResourceName);
                         ("ProtocolType", Str "HTTP");
                         ("Description",
                          Str ("API Gateway for Genezio Project "
                               ++ apiGatewayResourceName ++ "}"));
                         ("CorsConfiguration",
                          Obj [("AllowOrigins", Arr [Str "*"]);
                               ("AllowMethods", Arr [Str "*"]);
                               ("AllowHeaders", Arr [Str "*"]);
                               ("MaxAge", Num 10800)])])])];
          AWSTemplateFormatVersion := "2010-09-09";
          TemplateOutputs := None |};
     resourceIds := [];
     apiGatewayResourceName := apiGatewayResourceName |}.

Definition set_resource (name : string) (content : value) (t : Template) : Template :=
  {| Resources := set_member name content (Resources t);
     AWSTemplateFormatVersion := AWSTemplateFormatVersion t;
     TemplateOutputs := TemplateOutputs t |}.

Definition addResource (name : string) (content : value)
  (b : GenezioCloudFormationBuilder) : GenezioCloudFormationBuilder :=
  {| template := set_resource name content (template b);
     resourceIds := (resourceIds b ++ [name])%list;
     apiGatewayResourceName := apiGatewayResourceName b |}.

Definition ApiStage (api : string) : value :=
  Obj [("Type", Str "AWS::ApiGatewayV2::Stage");
       ("Properties",
        Obj [("ApiId", Ref api);
             ("AutoDeploy", Boolean true);
             ("StageName", Str "prod")])].

Definition ApiDeployment (api : string) (resourceIds : list string) : value :=
  Obj [("Type", Str "AWS::ApiGatewayV2::Deployment");
       ("DependsOn", Arr (List.map Str (resourceIds ++ ["ApiStage"])%list));
       ("Properties",
        Obj [("ApiId", Ref api);
             ("StageName", Str "prod")])].

Definition ApiUrl (api : string) : value :=
  Obj [("Description", Str "The URL of the API Gateway");
       ("Value",
        Join "" [Str "https://"; Ref api; Str ".execute-api.";
                 Ref "AWS::Region"; Str ".amazonaws.com/prod/"])].

(** The template as [build()] leaves it: the stage, the deployment and the
    outputs are assigned in this order. *)
Definition built (b : GenezioCloudFormationBuilder) : Template :=
  let api := apiGatewayResourceName b in
  let t1 := set_resource "ApiStage" (ApiStage api) (template b) in
  let t2 := set_resource "ApiDeployment" (ApiDeployment api (resourceIds b)) t1 in
  {| Resources := Resources t2;
     AWSTemplateFormatVersion := AWSTemplateFormatVersion t2;
     TemplateOutputs := Some (Obj [("ApiUrl", ApiUrl api)]) |}.

(** [build()]: the template as JSON text. *)
Definition build (b : GenezioCloudFormationBuilder) : string :=
  stringify (template_value (built b)).

(** ** SelfHostedAwsAdapter *)

(** [input.replace(/[^0-9a-zA-Z]/g, "")] *)
Definition is_alphanumeric (c : ascii) : bool :=
  let n := N_of_ascii c in
  (N.leb 48 n && N.leb n 57) || (N.leb 97 n && N.leb n 122) || (N.leb 65 n && N.leb n 90).

Fixpoint alphanumericString (input : string) : string :=
  match input with
  | EmptyString => EmptyString
  | String c tl =>
      if is_alphanumeric c then String c (alphanumericString tl)
      else alphanumericString tl
  end.

Definition getFunctionUrl (baseUrl methodType className methodName : string) : string :=
  if String.eqb methodType "http"
  then baseUrl ++ "/" ++ className ++ "/" ++ methodName
  else baseUrl ++ "/" ++ className.

Definition getLatestObjectVersion (bucket key : string) : Prog (option string) :=
  (result <- send (HeadObjectCommand bucket key) ;;
   Ret (head_VersionId result))%prog.

(** The answer of [#checkIfStackExists]. *)
Record StackProbe : Type := mkProbe
  { probe_exists : bool;
    probe_status : option string }.

(** The [.then] handler of [#checkIfStackExists]. *)
Definition described (stack : DescribeStacksCommandOutput) : StackProbe :=
  match Stacks stack with
  | Some [] => {| probe_exists := false; probe_status := None |}
  | Some (s :: _) => {| probe_exists := true; probe_status := StackStatus s |}
  | None => {| probe_exists := true; probe_status := None |}
  end.

(** The [.catch] handler of [#checkIfStackExists]. *)
Definition describeFailed (stackName : string) (e : JsError) : outcome StackProbe :=
  if String.eqb (err_message e) ("Stack with id " ++ stackName ++ " does not exist")
  then Fulfilled {| probe_exists := false; probe_status := None |}
  else Rejected e.

Definition checkIfStackExists (stackName : string) : Prog StackProbe :=
  Await (DescribeStacksCommand stackName)
    (fun r => match r with
              | Fulfilled stack => Ret (described stack)
              | Rejected e => settle (describeFailed stackName e)
              end).

(** [headBucket] with a callback: an error means the bucket is not there. *)
Definition bucketForProjectExists (bucketName : string) : Prog bool :=
  Await (headBucket bucketName)
    (fun r => match r with
              | Fulfilled _ => Ret true
              | Rejected _ => Ret false
              end).

Definition uploadZipToS3 (bucket key path : string) : Prog unit :=
  (content <- send (readFileSync path) ;;
   _ <- send (PutObjectCommand content bucket key) ;;
   Ret tt)%prog.

Definition getFunctionRuntime (language : string) : outcome string :=
  if String.eqb language ".js" then Fulfilled "nodejs14.x"
  else if String.eqb language ".ts" then Fulfilled "nodejs14.x"
  else if String.eqb language ".dart" then Fulfilled "provided.al2"
  else Rejected (Error ("Unsupported language: " ++ language)).

Definition status_is (status : option string) (expected : string) : bool :=
  match status with
  | Some s => String.eqb s expected
  | None => false
  end.

Definition createStack (template stackName : string) : Prog unit :=
  (send (CreateStackCommand stackName template ["CAPABILITY_IAM"]) ;;
   send (waitUntilStackCreateComplete 360 stackName))%prog.

(** The three branches of [#updateStack], once the stack has been probed. *)
Definition converge (probe : StackProbe) (createStackTemplate stackName : string)
  : Prog unit :=
  if negb (probe_exists probe) then
    createStack createStackTemplate stackName
  else if probe_exists probe && status_is (probe_status probe) "ROLLBACK_COMPLETE" then
    (send (DeleteStackCommand stackName) ;;
     send (waitUntilStackDeleteComplete 360 stackName) ;;
     createStack createStackTemplate stackName)%prog
  else
    (send (UpdateStackCommand stackName createStackTemplate ["CAPABILITY_IAM"]) ;;
     send (waitUntilStackUpdateComplete 360 stackName))%prog.

Definition updateStack (createStackTemplate stackName : string) : Prog unit :=
  (probe <- checkIfStackExists stackName ;;
   converge probe createStackTemplate stackName)%prog.

(** *** The resources of one class *)

Definition integrationTarget (integrationResourceName : string) : value :=
  Join "/" [Str "integrations"; Ref integrationResourceName].

Definition invokePermissionResource (lambdaFunctionResourceName api : string) : value :=
  Obj [("Type", Str "AWS::Lambda::Permission");
       ("Properties",
        Obj [("Action", Str "lambda:InvokeFunction");
             ("FunctionName", GetAtt lambdaFunctionResourceName "Arn");
             ("Principal", Str "apigateway.amazonaws.com");
             ("SourceArn",
              Join "" [Str "arn:aws:execute-api:"; Ref "AWS::Region"; Str ":";
                       Ref "AWS::AccountId"; Str ":"; Ref api; Str "/*"])])].

Definition routeResource (api routeKey integrationResourceName : string) : value :=
  Obj [("Type", Str "AWS::ApiGatewayV2::Route");
       ("Properties",
        Obj [("ApiId", Ref api);
             ("RouteKey", Str routeKey);
             ("Target", integrationTarget integrationResourceName)])].

Definition integrationResource (api lambdaFunctionResourceName : string) : value :=
  Obj [("Type", Str "AWS::ApiGatewayV2::Integration");
       ("Properties",
        Obj [("ApiId", Ref api);
             ("IntegrationType", Str "AWS_PROXY");
             ("PayloadFormatVersion", Str "2.0");
             ("IntegrationUri",
              Join "" [Str "arn:"; Ref "AWS::Partition"; Str ":apigateway:";
                       Ref "AWS::Region"; Str ":lambda:path/2015-03-31/functions/";
                       GetAtt lambdaFunctionResourceName "Arn"; Str "/invocations"])])].

Definition functionResource (lambdaFunctionResourceName runtime roleResourceName
                             bucketName bucketKey : string)
  (version : option string) : value :=
  Obj [("Type", Str "AWS::Lambda::Function");
       ("Properties",
        Obj [("FunctionName", Str lambdaFunctionResourceName);
             ("Handler", Str "index.handler");
             ("Architectures", Arr [Str "arm64"]);
             ("Runtime", Str runtime);
             ("Role", GetAtt roleResourceName "Arn");
             ("Code",
              Obj [("S3Bucket", Str bucketName);
                   ("S3Key", Str bucketKey);
                   ("S3ObjectVersion", of_option version)]);
             ("MemorySize", Num 1024);
             ("Timeout", Num 10)])].

Definition roleResource : value :=
  Obj [("Type", Str "AWS::IAM::Role");
       ("Properties",
        Obj [("AssumeRolePolicyDocument",
              Obj [("Version", Str "2012-10-17");
                   ("Statement",
                    Arr [Obj [("Effect", Str "Allow");
                              ("Principal",
                               Obj [("Service", Arr [Str "lambda.amazonaws.com"])]);
                              ("Action", Arr [Str "sts:AssumeRole"])]])]);
             ("Policies",
              Arr [Obj [("PolicyName", Str "LambdaExecutionPolicy");
                        ("PolicyDocument",
                         Obj [("Version", Str "2012-10-17");
                              ("Statement",
                               Arr [Obj [("Effect", Str "Allow");
                                         ("Action",
                                          Arr [Str "logs:CreateLogGroup";
                                               Str "logs:CreateLogStream";
                                               Str "logs:PutLogEvents"]);
                                         ("Resource", Str "arn:aws:logs:*:*:*")]])])]])])].

(** *** deploy *)

Definition is_http (m : MethodConfiguration) : bool :=
  String.eqb (method_type m) "http".

(** [projectConfiguration.classes.find((c) => c.path === inputItem.filePath)] *)
Definition classOf (projectConfiguration : ProjectConfiguration)
  (inputItem : GenezioCloudInput) : option ClassConfiguration :=
  List.find (fun c => String.eqb (class_path c) (input_filePath inputItem))
    (project_classes projectConfiguration).

(** [classConfiguration?.methods.filter((m) => m.type === "http")] *)
Definition httpMethods (classConfiguration : option ClassConfiguration)
  : list MethodConfiguration :=
  match classConfiguration with
  | Some c => List.filter is_http (class_methods c)
  | None => []
  end.

Definition bucketKeyOf (projectConfiguration : ProjectConfiguration)
  (inputItem : GenezioCloudInput) : string :=
  "genezio-" ++ project_name projectConfiguration
  ++ "/lambda-" ++ input_name inputItem ++ ".zip".

(** The body of the loop over the bundled classes: upload the archive, then
    add the class's resources to the template. *)
Definition deployItem (projectConfiguration : ProjectConfiguration)
  (bucketName apiGatewayResourceName : string)
  (inputItem : GenezioCloudInput)
  (cloudFormationTemplate : GenezioCloudFormationBuilder)
  : Prog GenezioCloudFormationBuilder :=
  let classConfiguration := classOf projectConfiguration inputItem in
  let bucketKey := bucketKeyOf projectConfiguration inputItem in
  let id := alphanumericString (input_name inputItem) in
  let lambdaFunctionResourceName := "LambdaFunction" ++ id in
  let invokePermissionResourceName := "LambdaInvokePermission" ++ id in
  let routeResourceName := "Route" ++ id in
  let integrationResourceName := "Integration" ++ id in
  let roleResourceName := "Role" ++ id in
  (uploadZipToS3 bucketName bucketKey (input_archivePath inputItem) ;;
   let t := addResource invokePermissionResourceName
              (invokePermissionResource lambdaFunctionResourceName apiGatewayResourceName)
              cloudFormationTemplate in
   let t := List.fold_left
              (fun t m =>
                 addResource (routeResourceName ++ method_name m)
                   (routeResource apiGatewayResourceName
                      ("ANY /" ++ input_name inputItem ++ "/" ++ method_name m)
                      integrationResourceName) t)
              (httpMethods classConfiguration) t in
   let t := addResource routeResourceName
              (routeResource apiGatewayResourceName
                 ("ANY /" ++ input_name inputItem) integrationResourceName) t in
   let t := addResource integrationResourceName
              (integrationResource apiGatewayResourceName lambdaFunctionResourceName) t in
   match classConfiguration with
   | None =>
       Throw (TypeError "Cannot read properties of undefined (reading 'language')")
   | Some c =>
       runtime <- settle (getFunctionRuntime (class_language c)) ;;
       version <- getLatestObjectVersion bucketName bucketKey ;;
       let t := addResource lambdaFunctionResourceName
                  (functionResource lambdaFunctionResourceName runtime roleResourceName
                     bucketName bucketKey version) t in
       let t := addResource roleResourceName roleResource t in
       Ret t
   end)%prog.

(** The start of [deploy]: probe the bucket, check the credentials, create
    the bucket with versioning when it is not there. *)
Definition prepareBucket (credentials : option string) (bucketName region : string)
  : Prog unit :=
  (bucketExists <- bucketForProjectExists bucketName ;;
   match credentials with
   | None => Throw (Error "AWS credentials not found")
   | Some _ =>
       if negb bucketExists then
         send (CreateBucketCommand bucketName
                 (if String.eqb region "us-east-1" then None else Some region)) ;;
         send (PutBucketVersioningCommand bucketName "Enabled")
       else Ret tt
   end)%prog.

(** The loop of [deploy] over its input. *)
Definition synthesize (projectConfiguration : ProjectConfiguration)
  (bucketName apiGatewayResourceName : string) (input : list GenezioCloudInput)
  : Prog GenezioCloudFormationBuilder :=
  for_of (deployItem projectConfiguration bucketName apiGatewayResourceName)
    input (newBuilder apiGatewayResourceName).

Definition resultClass (apiGatewayUrl : option string) (inputItem : GenezioCloudInput)
  : GenezioCloudResultClass :=
  {| className := input_name inputItem;
     result_methods :=
       List.map
         (fun method =>
            {| result_method_name := method_name method;
               result_method_type := method_type method;
               result_method_cronString := method_cronString method;
               result_method_functionUrl :=
                 getFunctionUrl (interpolate apiGatewayUrl) (method_type method)
                   (input_name inputItem) (method_name method) |})
         (input_methods inputItem);
     functionUrl := interpolate apiGatewayUrl ++ "/" ++ input_name inputItem |}.

(** The end of [deploy]: check the status of the described stack, read its
    first output and attach the URLs. *)
Definition resolve (stackDetails : DescribeStacksCommandOutput)
  (input : list GenezioCloudInput) : outcome GenezioCloudOutput :=
  match Stacks stackDetails with
  | Some (s :: _) =>
      if negb (status_is (StackStatus s) "UPDATE_COMPLETE")
         && negb (status_is (StackStatus s) "CREATE_COMPLETE")
      then Rejected (Error "Stack update failed")
      else
        match Outputs s with
        | None =>
            Rejected (TypeError "Cannot read properties of undefined (reading '0')")
        | Some [] =>
            Rejected (TypeError "Cannot read properties of undefined (reading 'OutputValue')")
        | Some (o :: _) =>
            Fulfilled {| classes := List.map (resultClass (OutputValue o)) input |}
        end
  | _ => Rejected (Error "Stack update failed")
  end.

Definition bucketNameOf (projectConfiguration : ProjectConfiguration) : string :=
  "bucket-" ++ project_region projectConfiguration
  ++ "-" ++ project_name projectConfiguration.

Definition stackNameOf (projectConfiguration : ProjectConfiguration) : string :=
  "genezio-" ++ project_name projectConfiguration.

Definition apiGatewayResourceNameOf (projectConfiguration : ProjectConfiguration) : string :=
  "ApiGateway" ++ alphanumericString (project_name projectConfiguration).

(** [new CloudFormationClient({ region })] and [new S3({ region })]: the SDK
    resolves the configuration of a client when the client is constructed,
    and its region resolver throws when the region it is given is empty.
    Nothing is sent by then. *)
Definition newClient (region : string) : outcome unit :=
  if String.eqb region "" then Rejected (Error "Region is missing")
  else Fulfilled tt.

(** [deploy(input, projectConfiguration)]; [credentials] is the access key id
    of [AWS.config.credentials], if any. *)
Definition deploy (credentials : option string) (input : list GenezioCloudInput)
  (projectConfiguration : ProjectConfiguration) : Prog GenezioCloudOutput :=
  let bucketName := bucketNameOf projectConfiguration in
  let stackName := stackNameOf projectConfiguration in
  (settle (newClient (project_region projectConfiguration)) ;;
   settle (newClient (project_region projectConfiguration)) ;;
   prepareBucket credentials bucketName (project_region projectConfiguration) ;;
   cloudFormationTemplate <-
     synthesize projectConfiguration bucketName
       (apiGatewayResourceNameOf projectConfiguration) input ;;
   let templateResult := build cloudFormationTemplate in
   updateStack templateResult stackName ;;
   stackDetails <- send (DescribeStacksCommand stackName) ;;
   settle (resolve stackDetails input))%prog.

(** ** A simulated cloud

    A backend in which every call succeeds: the bucket and the stack are
    remembered, a describe of a stack that is not there is rejected with
    CloudFormation's message, and a described stack carries one output. *)

Record Cloud : Type := mkCloud
  { cloud_bucket : bool;
    cloud_stack : option string }.

Record CloudSettings : Type := mkCloudSettings
  { archive : string;
    uploadVersion : option string;
    storedVersion : option string;
    apiUrl : option string }.

Definition stackNotFound (stackName : string) : JsError :=
  mkJsError "ValidationError" ("Stack with id " ++ stackName ++ " does not exist").

Definition cloud (cfg : CloudSettings) : Backend Cloud :=
  fun c =>
    match c as c0 return Cloud -> outcome (Reply c0) * Cloud with
    | readFileSync _ => fun w => (Fulfilled (archive cfg), w)
    | headBucket _ =>
        fun w => (if cloud_bucket w then Fulfilled tt
                  else Rejected (mkJsError "NotFound" "UnknownError"), w)
    | CreateBucketCommand _ _ =>
        fun w => (Fulfilled tt, mkCloud true (cloud_stack w))
    | PutBucketVersioningCommand _ _ => fun w => (Fulfilled tt, w)
    | PutObjectCommand _ _ _ =>
        fun w => (Fulfilled (mkPutObjectOutput None (uploadVersion cfg)), w)
    | HeadObjectCommand _ _ =>
        fun w => (Fulfilled (mkHeadObjectOutput (storedVersion cfg)), w)
    | DescribeStacksCommand stackName =>
        fun w =>
          (match cloud_stack w with
           | None => Rejected (stackNotFound stackName)
           | Some status =>
               Fulfilled
                 (mkDescribeStacksOutput
                    (Some [mkStack (Some stackName) (Some status)
                             (Some [mkOutput (Some "ApiUrl") (apiUrl cfg)])]))
           end, w)
    | CreateStackCommand _ _ _ =>
        fun w => (Fulfilled tt, mkCloud (cloud_bucket w) (Some "CREATE_IN_PROGRESS"))
    | UpdateStackCommand _ _ _ =>
        fun w => (Fulfilled tt, mkCloud (cloud_bucket w) (Some "UPDATE_IN_PROGRESS"))
    | DeleteStackCommand _ =>
        fun w => (Fulfilled tt, mkCloud (cloud_bucket w) (Some "DELETE_IN_PROGRESS"))
    | waitUntilStackCreateComplete _ _ =>
        fun w => (Fulfilled tt, mkCloud (cloud_bucket w) (Some "CREATE_COMPLETE"))
    | waitUntilStackUpdateComplete _ _ =>
        fun w => (Fulfilled tt, mkCloud (cloud_bucket w) (Some "UPDATE_COMPLETE"))
    | waitUntilStackDeleteComplete _ _ =>
        fun w => (Fulfilled tt, mkCloud (cloud_bucket w) None)
    end.

(** The project of the end-to-end scenario: class Orders, written in
    TypeScript, with an http method and a method of another trigger type. *)
Definition ordersMethods (kind : string) : list MethodConfiguration :=
  [mkMethod "invoice" "http" None; mkMethod "list" kind None].

Definition shop (kind : string) : ProjectConfiguration :=
  mkProject "shop" "us-east-1" [mkClass "orders.ts" ".ts" (ordersMethods kind)].

Definition shopInput (kind : string) : list GenezioCloudInput :=
  [mkInput "Orders" "/tmp/genezio-orders/genezioDeploy.zip" "orders.ts" (ordersMethods kind)].

Definition testSettings : CloudSettings :=
  mkCloudSettings "PK" (Some "v-upload") (Some "v-stored") (Some "https://abc123.example/prod").

(** ** Vocabulary of the properties *)

(** Several [addResource] calls in a row. *)
Definition addResources (rs : list (string * value)) (b : GenezioCloudFormationBuilder)
  : GenezioCloudFormationBuilder :=
  List.fold_left (fun b r => addResource (fst r) (snd r) b) rs b.

(** Specification (section 4.3): the remote states the state machine
    distinguishes, and the calls of each of its rows. *)
Inductive RemoteStackState : Type :=
| Absent
| RollbackComplete
| OtherExisting.

Definition probedState (probe : StackProbe) : RemoteStackState :=
  if probe_exists probe then
    match probe_status probe with
    | Some status =>
        if String.eqb status "ROLLBACK_COMPLETE" then RollbackComplete else OtherExisting
    | None => OtherExisting
    end
  else Absent.

Definition stateMachineRow (s : RemoteStackState) (template stackName : string)
  : list Call :=
  match s with
  | Absent =>
      [CreateStackCommand stackName template ["CAPABILITY_IAM"];
       waitUntilStackCreateComplete 360 stackName]
  | RollbackComplete =>
      [DeleteStackCommand stackName;
       waitUntilStackDeleteComplete 360 stackName;
       CreateStackCommand stackName template ["CAPABILITY_IAM"];
       waitUntilStackCreateComplete 360 stackName]
  | OtherExisting =>
      [UpdateStackCommand stackName template ["CAPABILITY_IAM"];
       waitUntilStackUpdateComplete 360 stackName]
  end.

(** What the probe makes of the answer to its describe call. *)
Definition probeOf (stackName : string) (reply : outcome DescribeStacksCommandOutput)
  : outcome StackProbe :=
  match reply with
  | Fulfilled stack => Fulfilled (described stack)
  | Rejected e => describeFailed stackName e
  end.

Definition absent : StackProbe := {| probe_exists := false; probe_status := None |}.

(** The resources one class contributes, in the order [deployItem] adds them,
    given the runtime of its language and the version id read back from S3. *)
Definition earlyResources (projectConfiguration : ProjectConfiguration)
  (api : string) (inputItem : GenezioCloudInput) : list (string * value) :=
  let id := alphanumericString (input_name inputItem) in
  let permission :=
    ("LambdaInvokePermission" ++ id, invokePermissionResource ("LambdaFunction" ++ id) api) in
  let dedicated m :=
    (("Route" ++ id) ++ method_name m,
     routeResource api ("ANY /" ++ input_name inputItem ++ "/" ++ method_name m)
       ("Integration" ++ id)) in
  let catchAll :=
    ("Route" ++ id,
     routeResource api ("ANY /" ++ input_name inputItem) ("Integration" ++ id)) in
  let integration :=
    ("Integration" ++ id, integrationResource api ("LambdaFunction" ++ id)) in
  List.app [permission]
    (List.app (List.map dedicated (httpMethods (classOf projectConfiguration inputItem)))
       [catchAll; integration]).

Definition itemResources (projectConfiguration : ProjectConfiguration)
  (bucketName api : string) (inputItem : GenezioCloudInput)
  (runtime : string) (version : option string) : list (string * value) :=
  let id := alphanumericString (input_name inputItem) in
  List.app (earlyResources projectConfiguration api inputItem)
    [("LambdaFunction" ++ id,
      functionResource ("LambdaFunction" ++ id) runtime ("Role" ++ id) bucketName
        (bucketKeyOf projectConfiguration inputItem) version);
     ("Role" ++ id, roleResource)].

(** The calls of one class when all of them succeed: read the archive, put
    it, then ask S3 for the version of the stored object. *)
Definition itemExchange (projectConfiguration : ProjectConfiguration)
  (bucketName : string) (inputItem : GenezioCloudInput)
  (content : string) (upload : PutObjectCommandOutput) (stored : HeadObjectCommandOutput)
  : list Event :=
  let bucketKey := bucketKeyOf projectConfiguration inputItem in
  [Ev (readFileSync (input_archivePath inputItem)) (Fulfilled content);
   Ev (PutObjectCommand content bucketName bucketKey) (Fulfilled upload);
   Ev (HeadObjectCommand bucketName bucketKey) (Fulfilled stored)].

(** Specification (section 4.2, step 3): the fixed table from languages to
    runtimes, and a class whose language is not in the table. *)
Definition runtimeTable : list (string * string) :=
  [(".js", "nodejs14.x"); (".ts", "nodejs14.x"); (".dart", "provided.al2")].

Definition unsupported (projectConfiguration : ProjectConfiguration)
  (inputItem : GenezioCloudInput) : Prop :=
  exists c,
    classOf projectConfiguration inputItem = Some c
    /\ ~ In (class_language c) (List.map fst runtimeTable).

(** The routes of a template: the route key and the target of every resource
    of type route, in the order of the template. *)
Definition routeOf (resource : value) : list (string * value) :=
  match get "Type" resource with
  | Some (Str type) =>
      if String.eqb type "AWS::ApiGatewayV2::Route" then
        match get_path ["Properties"; "RouteKey"] resource,
              get_path ["Properties"; "Target"] resource with
        | Some (Str routeKey), Some target => [(routeKey, target)]
        | _, _ => []
        end
      else []
  | _ => []
  end.

Definition routeTable (t : Template) : list (string * value) :=
  List.flat_map (fun r => routeOf (snd r)) (Resources t).

(** Specification (section 4.2, step 6), in its own words.  A route is bound
    to an integration by the target [integrations/<integration>].  A unit has
    one dedicated route [ANY /<unit>/<method>] for every method whose trigger
    kind is http, in the order of its methods, and always one catch-all route
    [ANY /<unit>], all bound to the same integration. *)
Definition boundTo (integration : string) : value :=
  Obj [("Fn::Join",
        Arr [Str "/"; Arr [Str "integrations"; Obj [("Ref", Str integration)]]])].

Definition unitRoutes (unitName : string) (methods : list MethodConfiguration)
  (integration : string) : list (string * value) :=
  List.app
    (List.map
       (fun m => ("ANY /" ++ unitName ++ "/" ++ method_name m, boundTo integration))
       (List.filter (fun m => String.eqb (method_type m) "http") methods))
    [("ANY /" ++ unitName, boundTo integration)].

(** The methods of a unit are those of the first class of the project that
    has the file path of the unit. *)
Fixpoint methodsOfUnit (classes : list ClassConfiguration) (filePath : string)
  : list MethodConfiguration :=
  match classes with
  | [] => []
  | c :: rest =>
      if String.eqb (class_path c) filePath then class_methods c
      else methodsOfUnit rest filePath
  end.

Definition expectedRoutes (projectConfiguration : ProjectConfiguration)
  (inputItem : GenezioCloudInput) : list (string * value) :=
  unitRoutes (input_name inputItem)
    (methodsOfUnit (project_classes projectConfiguration) (input_filePath inputItem))
    ("Integration" ++ alphanumericString (input_name inputItem)).



(** A call that went well: it was fulfilled, or it is the bucket probe, whose
    rejection only says that the bucket is not there. *)
Definition went_well (e : Event) : bool :=
  match ev_call e, ev_reply e with
  | headBucket _, _ => true
  | _, Fulfilled _ => true
  | _, Rejected _ => false
  end.

Definition no_stack_call (tr : list Event) : Prop :=
  Forall (fun e => is_stack_call (ev_call e) = false) tr.

(** A synthesis that went through: what was exchanged with S3 and which
    resources were added, class after class. *)
Inductive Synthesized (projectConfiguration : ProjectConfiguration)
  (bucketName api : string)
  : list GenezioCloudInput -> list Event -> list (string * value) -> Prop :=
| Synthesized_nil : Synthesized projectConfiguration bucketName api [] [] []
| Synthesized_cons (inputItem : GenezioCloudInput) (rest : list GenezioCloudInput)
    (c : ClassConfiguration) (runtime content : string)
    (upload : PutObjectCommandOutput) (stored : HeadObjectCommandOutput)
    (tr : list Event) (rs : list (string * value)) :
    classOf projectConfiguration inputItem = Some c ->
    getFunctionRuntime (class_language c) = Fulfilled runtime ->
    Synthesized projectConfiguration bucketName api rest tr rs ->
    Synthesized projectConfiguration bucketName api (inputItem :: rest)
      (List.app (itemExchange projectConfiguration bucketName inputItem content upload stored) tr)
      (List.app (itemResources projectConfiguration bucketName api inputItem runtime
                   (head_VersionId stored)) rs).

Definition is_version_query (c : Call) : bool :=
  match c with HeadObjectCommand _ _ => true | _ => false end.

(** The stack description an event carries, when the event is a describe
    call that was fulfilled. *)
Definition described_by (e : Event) : option DescribeStacksCommandOutput :=
  match e with
  | Ev c r =>
      match c as c0 return outcome (Reply c0) -> option DescribeStacksCommandOutput with
      | DescribeStacksCommand _ =>
          fun r => match r with
                   | Fulfilled stackDetails => Some stackDetails
                   | Rejected _ => None
                   end
      | _ => fun _ => None
      end r
  end.

Definition lastEvent (tr : list Event) : option Event :=
  match List.rev tr with
  | e :: _ => Some e
  | [] => None
  end.

(** A project with one class written in a language that has no runtime. *)
Definition pythonProject : ProjectConfiguration :=
  mkProject "shop" "us-east-1" [mkClass "orders.py" ".py" [mkMethod "list" "jsonrpc" None]].

Definition pythonInput : list GenezioCloudInput :=
  [mkInput "Orders" "/tmp/genezio-orders/genezioDeploy.zip" "orders.py"
     [mkMethod "list" "jsonrpc" None]].

(** The ids of the resources of the classes never begin like the ids of the
    gateway, the stage and the deployment. *)
Definition class_id (name : string) : Prop :=
  match name with
  | String c _ => c <> "A"%char
  | EmptyString => False
  end.




(** Two classes whose route ids collide: route [bc] of class [A] and route
    [c] of class [Ab] are both named [RouteAbc]. *)
Definition collidingProject : ProjectConfiguration :=
  mkProject "shop" "us-east-1"
    [mkClass "a.ts" ".ts" [mkMethod "bc" "http" None];
     mkClass "ab.ts" ".ts" [mkMethod "c" "http" None]].

Definition collidingInput : list GenezioCloudInput :=
  [mkInput "A" "/tmp/a.zip" "a.ts" [mkMethod "bc" "http" None];
   mkInput "Ab" "/tmp/ab.zip" "ab.ts" [mkMethod "c" "http" None]].

(** The bundlers of [deployClasses] (commands/deploy.ts), which picks one by
    the language of each class before the adapter is called. *)
Inductive Bundler : Type :=
| NodeTsBundlers
| NodeJsBundlers
| DartBundler.

Definition selectBundler (language : string) : outcome Bundler :=
  if String.eqb language ".ts" then Fulfilled NodeTsBundlers
  else if String.eqb language ".js" then Fulfilled NodeJsBundlers
  else if String.eqb language ".dart" then Fulfilled DartBundler
  else Rejected (Error ("Unsupported " ++ language)).

(** ** Further vocabulary *)

(** The ids one class adds to the template, in order. *)
Definition itemIds (projectConfiguration : ProjectConfiguration)
  (inputItem : GenezioCloudInput) : list string :=
  let id := alphanumericString (input_name inputItem) in
  let dedicated m := ("Route" ++ id) ++ method_name m in
  List.app ["LambdaInvokePermission" ++ id]
    (List.app (List.map dedicated (httpMethods (classOf projectConfiguration inputItem)))
       ["Route" ++ id; "Integration" ++ id; "LambdaFunction" ++ id; "Role" ++ id]).

(** The characters of a string. *)
Fixpoint chars (s : string) : list ascii :=
  match s with
  | EmptyString => []
  | String c tl => c :: chars tl
  end.

(** The three kinds of calls of [deploy]. *)
Definition is_setup_call (c : Call) : bool :=
  match c with
  | headBucket _ | CreateBucketCommand _ _ | PutBucketVersioningCommand _ _ => true
  | _ => false
  end.

Definition is_item_call (c : Call) : bool :=
  match c with
  | readFileSync _ | PutObjectCommand _ _ _ | HeadObjectCommand _ _ => true
  | _ => false
  end.

(** A call that stays within the bucket and the stack of the project: S3
    calls name the bucket, objects are put and looked up under the key of a
    class of the input, CloudFormation calls name the stack, stacks are
    created and updated with the IAM capability, and waits are bounded by 360
    seconds. *)
Definition own_call (projectConfiguration : ProjectConfiguration)
  (input : list GenezioCloudInput) (c : Call) : Prop :=
  let bucketName := bucketNameOf projectConfiguration in
  let stackName := stackNameOf projectConfiguration in
  let keys := List.map (bucketKeyOf projectConfiguration) input in
  match c with
  | readFileSync path => In path (List.map input_archivePath input)
  | headBucket b | PutBucketVersioningCommand b _ => b = bucketName
  | CreateBucketCommand b location =>
      b = bucketName
      /\ location = (if String.eqb (project_region projectConfiguration) "us-east-1"
                     then None else Some (project_region projectConfiguration))
  | PutObjectCommand _ b key | HeadObjectCommand b key => b = bucketName /\ In key keys
  | DescribeStacksCommand n | DeleteStackCommand n => n = stackName
  | CreateStackCommand n _ capabilities | UpdateStackCommand n _ capabilities =>
      n = stackName /\ capabilities = ["CAPABILITY_IAM"]
  | waitUntilStackCreateComplete maxWaitTime n
  | waitUntilStackUpdateComplete maxWaitTime n
  | waitUntilStackDeleteComplete maxWaitTime n => n = stackName /\ maxWaitTime = 360%Z
  end.

(** The template a call carries, if it is a creation or an update. *)
Definition templateOf (c : Call) : option string :=
  match c with
  | CreateStackCommand _ template _ | UpdateStackCommand _ template _ => Some template
  | _ => None
  end.

(** The error an event or an outcome carries. *)
Definition rejection (e : Event) : option JsError :=
  match ev_reply e with
  | Rejected err => Some err
  | Fulfilled _ => None
  end.

Definition error_of {A : Type} (o : outcome A) : option JsError :=
  match o with
  | Rejected err => Some err
  | Fulfilled _ => None
  end.

(** The rejections the adapter handles itself: those of the bucket probe, and
    those of a describe call that carry the stack-not-found message. *)
Definition recovered (e : Event) : bool :=
  match e with
  | Ev c r =>
      match c as c0 return outcome (Reply c0) -> bool with
      | headBucket _ => fun _ => true
      | DescribeStacksCommand stackName =>
          fun r => match r with
                   | Rejected err =>
                       String.eqb (err_message err)
                         ("Stack with id " ++ stackName ++ " does not exist")
                   | Fulfilled _ => false
                   end
      | _ => fun _ => false
      end r
  end.

(** A trace in which a rejection that is not handled ends the run with its
    error. *)
Fixpoint fail_fast (tr : list Event) (err : option JsError) : Prop :=
  match tr with
  | [] => True
  | e :: rest =>
      match rejection e with
      | Some x => if recovered e then fail_fast rest err else rest = [] /\ err = Some x
      | None => fail_fast rest err
      end
  end.

(** The simulated cloud with an S3 that refuses every upload. *)
Definition accessDenied : JsError := mkJsError "AccessDenied" "Access Denied".

Definition readOnlyCloud (cfg : CloudSettings) : Backend Cloud :=
  fun c =>
    match c as c0 return Cloud -> outcome (Reply c0) * Cloud with
    | PutObjectCommand _ _ _ => fun w => (Rejected accessDenied, w)
    | c0 => cloud cfg c0
    end.

(** ** The reporter (utils/reporter.ts) *)

Definition newline : string := String (ascii_of_N 10) EmptyString.

(** A deployed function, as the backend describes it. *)
Record DeployCodeFunctionResponse : Type := mkFunctionResponse
  { function_name : string;
    function_id : string;
    function_cloudUrl : string }.

Section Reporter.

(** [TriggerType.http] and [colors.yellow] come from modules that are not
    part of these sources. *)
Variable TriggerType_http : string.
Variable yellow : string -> string.

Definition httpLine (classInfo : GenezioCloudResultClass)
  (method : GenezioCloudResultMethod) : string :=
  ("  - " ++ className classInfo ++ "." ++ result_method_name method ++ ": "
   ++ yellow (result_method_functionUrl method)) ++ newline.

(** [reportSuccess]: what it passes to [log.info], in order. *)
Definition reportSuccess (classesInfo : list GenezioCloudResultClass) : list string :=
  let printHttpString :=
    List.fold_left
      (fun printHttpString classInfo =>
         List.fold_left
           (fun printHttpString method =>
              if String.eqb (result_method_type method) TriggerType_http
              then printHttpString ++ httpLine classInfo method
              else printHttpString)
           (result_methods classInfo) printHttpString)
      classesInfo "" in
  if negb (String.eqb printHttpString "")
  then [""; "HTTP Methods Deployed:"; printHttpString]
  else [].

Definition functionLine (func : DeployCodeFunctionResponse) : string :=
  ("  - " ++ function_name func ++ ": " ++ yellow (function_cloudUrl func)) ++ newline.

(** [reportSuccessFunctions]: what it passes to [log.info], in order. *)
Definition reportSuccessFunctions (functions : list DeployCodeFunctionResponse)
  : list string :=
  let printHttpString :=
    List.fold_left
      (fun printHttpString func => printHttpString ++ functionLine func)
      functions "" in
  if negb (String.eqb printHttpString "")
  then [""; "Functions Deployed:"; printHttpString]
  else [].

(** The http methods of the classes, class after class. *)
Definition httpLines (classesInfo : list GenezioCloudResultClass) : list string :=
  List.flat_map
    (fun classInfo =>
       List.map (httpLine classInfo)
         (List.filter
            (fun method => String.eqb (result_method_type method) TriggerType_http)
            (result_methods classInfo)))
    classesInfo.

End Reporter.

(** Strings put one after the other. *)
Definition glue (lines : list string) : string :=
  List.fold_right String.append EmptyString lines.

(** ** The CDN of a Next.js deployment (nextJsDeploy's deployCDN) *)

Record OriginDomain : Type := mkOriginDomain
  { domain_id : string;
    domain_type : string }.

Record CreateFrontendV2Origin : Type := mkOrigin
  { origin_domain : OriginDomain;
    origin_path : option string;
    origin_methods : list string;
    origin_cachePolicy : string }.

Record CreateFrontendV2Path : Type := mkPath
  { path_origin : CreateFrontendV2Origin;
    path_pattern : string }.

(** The arguments of [createFrontendProjectV2]. *)
Record CreateFrontendV2Request : Type := mkFrontendRequest
  { request_domainName : string;
    request_projectName : string;
    request_region : string;
    request_stage : string;
    request_paths : list CreateFrontendV2Path;
    request_defaultPath : CreateFrontendV2Origin;
    request_stack : list string }.

(** What one call of [deployCDN] did: the errors it reported to Sentry, the
    request it sent, if it got that far, and what it returned or threw. *)
Record CdnRun : Type := mkCdnRun
  { cdn_captured : list JsError;
    cdn_request : option CreateFrontendV2Request;
    cdn_returned : outcome string }.

(** [deployedFunctions.find((f) => f.name === name)?.id ?? ""] *)
Definition functionIdOf (name : string) (deployedFunctions : list DeployCodeFunctionResponse)
  : string :=
  match List.find (fun f => String.eqb (function_name f) name) deployedFunctions with
  | Some f => function_id f
  | None => ""
  end.

Section Cdn.

(** [computeAssetsPaths] (which lists the assets folder) and
    [createFrontendProjectV2] (which calls the backend) are not part of these
    sources: they are taken as they answer. *)
Variable computeAssetsPaths : CreateFrontendV2Origin -> outcome (list CreateFrontendV2Path).
Variable createFrontendProjectV2 : CreateFrontendV2Request -> outcome string.

Definition PATH_NUMBER_LIMIT : nat := 200.

Definition deployCDN (deployedFunctions : list DeployCodeFunctionResponse)
  (domainName configName configRegion stage : string) : CdnRun :=
  let functionMethods := ["GET"; "HEAD"; "POST"; "PUT"; "DELETE"; "OPTIONS"; "PATCH"] in
  let serverOrigin :=
    mkOrigin (mkOriginDomain (functionIdOf "function-server" deployedFunctions) "function")
      None functionMethods "custom-function-cache" in
  let imageOptimizationOrigin :=
    mkOrigin
      (mkOriginDomain (functionIdOf "function-image-optimization" deployedFunctions)
         "function")
      None functionMethods "custom-function-cache" in
  let s3Origin :=
    mkOrigin (mkOriginDomain "frontendHosting" "s3") (Some "_assets")
      ["GET"; "HEAD"; "OPTIONS"] "caching-optimized" in
  match computeAssetsPaths s3Origin with
  | Rejected e => mkCdnRun [] None (Rejected e)
  | Fulfilled assets =>
      let paths :=
        List.app [mkPath serverOrigin "api/*";
                  mkPath serverOrigin "_next/data/*";
                  mkPath imageOptimizationOrigin "_next/image*"] assets in
      let captured :=
        if Nat.leb PATH_NUMBER_LIMIT (List.length paths)
        then [Error ("Too many paths for the CDN. Length: "
                     ++ number (Z.of_nat (List.length paths)))]
        else [] in
      let request :=
        mkFrontendRequest domainName configName configRegion stage paths serverOrigin
          ["nextjs"] in
      match createFrontendProjectV2 request with
      | Rejected e => mkCdnRun captured (Some request) (Rejected e)
      | Fulfilled distributionUrl =>
          mkCdnRun captured (Some request)
            (Fulfilled
               (if negb (String.prefix "https://" distributionUrl)
                   && negb (String.prefix "http://" distributionUrl)
                then "https://" ++ distributionUrl
                else distributionUrl))
      end
  end.

End Cdn.

(** * Properties *)

(** ** Running program trees *)

Lemma run_bind {W A B : Type} (b : Backend W) (p : Prog A) (f : A -> Prog B) (w : W) :
  run b (bind p f) w =
  let '(tr1, o1, w1) := run b p w in
  match o1 with
  | Fulfilled a => let '(tr2, o2, w2) := run b (f a) w1 in ((tr1 ++ tr2)%list, o2, w2)
  | Rejected e => (tr1, Rejected e, w1)
  end.
Proof.
  revert w; induction p as [a | e | c k IH]; intros w; simpl.
  - destruct (run b (f a) w) as [[tr2 o2] w2]; reflexivity.
  - reflexivity.
  - destruct (b c w) as [r w1]. rewrite IH.
    destruct (run b (k r) w1) as [[tr1 o1] w1'].
    destruct o1 as [a | e]; [| reflexivity].
    destruct (run b (f a) w1') as [[tr2 o2] w2]; reflexivity.
Qed.

Lemma run_send {W : Type} (b : Backend W) (c : Call) (w : W) :
  run b (send c) w = ([Ev c (fst (b c w))], fst (b c w), snd (b c w)).
Proof.
  unfold send; simpl. destruct (b c w) as [[a | e] w1]; reflexivity.
Qed.

Lemma run_settle {W A : Type} (b : Backend W) (o : outcome A) (w : W) :
  run b (settle o) w = ([], o, w).
Proof. destruct o; reflexivity. Qed.

(** ** Object members *)

Lemma get_member_set_member_same (k : string) (x : value) (ms : list (string * value)) :
  get_member k (set_member k x ms) = Some x.
Proof.
  induction ms as [| [k' v] tl IH]; simpl.
  - rewrite String.eqb_refl; reflexivity.
  - destruct (String.eqb k' k) eqn:E; simpl; rewrite E; [reflexivity | exact IH].
Qed.

Lemma get_member_set_member_other (k k' : string) (x : value) (ms : list (string * value)) :
  k <> k' -> get_member k' (set_member k x ms) = get_member k' ms.
Proof.
  intros Hne. induction ms as [| [k0 v] tl IH]; simpl.
  - destruct (String.eqb k k') eqn:E; [apply String.eqb_eq in E; contradiction | reflexivity].
  - destruct (String.eqb k0 k) eqn:E; simpl.
    + apply String.eqb_eq in E; subst k0.
      destruct (String.eqb k k') eqn:E'; [apply String.eqb_eq in E'; contradiction | reflexivity].
    + rewrite IH; reflexivity.
Qed.

(** ** The builder *)

Lemma resourceIds_addResources (rs : list (string * value)) (b : GenezioCloudFormationBuilder) :
  resourceIds (addResources rs b) = (resourceIds b ++ List.map fst rs)%list.
Proof.
  revert b; induction rs as [| [name content] tl IH]; intros b; simpl.
  - rewrite app_nil_r; reflexivity.
  - unfold addResources in *; simpl. rewrite IH; simpl.
    rewrite <- app_assoc; reflexivity.
Qed.

Lemma apiGatewayResourceName_addResources (rs : list (string * value))
  (b : GenezioCloudFormationBuilder) :
  apiGatewayResourceName (addResources rs b) = apiGatewayResourceName b.
Proof.
  revert b; induction rs as [| [name content] tl IH]; intros b; simpl; [reflexivity |].
  unfold addResources in *; simpl. rewrite IH; reflexivity.
Qed.

Lemma addResources_app (rs1 rs2 : list (string * value)) (b : GenezioCloudFormationBuilder) :
  addResources (rs1 ++ rs2) b = addResources rs2 (addResources rs1 b).
Proof. unfold addResources; apply fold_left_app. Qed.

(** C8. Whatever resources were added to a new builder, and in whatever
    order, the deployment resource of the built template depends on the ids
    of all of them, in the order they were added, followed by the stage. *)
Theorem deployment_depends_on_all_added_resources :
  forall (api : string) (added : list (string * value)),
    get_path ["Resources"; "ApiDeployment"; "DependsOn"]
      (template_value (built (addResources added (newBuilder api))))
    = Some (Arr (List.map Str (List.map fst added ++ ["ApiStage"])%list)).
Proof.
  intros api added.
  unfold template_value, built; simpl.
  rewrite get_member_set_member_same; simpl.
  rewrite resourceIds_addResources; reflexivity.
Qed.

(** ** The stack probe *)

Lemma run_checkIfStackExists {W : Type} (b : Backend W) (stackName : string) (w : W) :
  run b (checkIfStackExists stackName) w
  = ([Ev (DescribeStacksCommand stackName) (fst (b (DescribeStacksCommand stackName) w))],
     probeOf stackName (fst (b (DescribeStacksCommand stackName) w)),
     snd (b (DescribeStacksCommand stackName) w)).
Proof.
  unfold checkIfStackExists; simpl.
  destruct (b (DescribeStacksCommand stackName) w) as [[stack | e] w1]; simpl.
  - reflexivity.
  - rewrite run_settle; reflexivity.
Qed.

(** C6. The probe issues one describe call.  When that call is rejected with
    the stack-not-found message, or answers with an empty list of stacks, the
    probe returns the absent state; a rejection with any other message is
    rethrown as it is, and the probe throws nothing else. *)
Theorem probe_maps_stack_not_found_to_absent :
  forall (W : Type) (b : Backend W) (w : W) (stackName : string)
         (reply : outcome DescribeStacksCommandOutput) (w1 : W)
         (tr : list Event) (o : outcome StackProbe) (w2 : W),
    b (DescribeStacksCommand stackName) w = (reply, w1) ->
    run b (checkIfStackExists stackName) w = (tr, o, w2) ->
    tr = [Ev (DescribeStacksCommand stackName) reply] /\ w2 = w1
    /\ (forall e, reply = Rejected e ->
                  err_message e = "Stack with id " ++ stackName ++ " does not exist" ->
                  o = Fulfilled absent)
    /\ (forall stack, reply = Fulfilled stack -> Stacks stack = Some [] ->
                      o = Fulfilled absent)
    /\ (forall e, reply = Rejected e ->
                  err_message e <> "Stack with id " ++ stackName ++ " does not exist" ->
                  o = Rejected e)
    /\ (forall e, o = Rejected e ->
                  reply = Rejected e
                  /\ err_message e <> "Stack with id " ++ stackName ++ " does not exist").
Proof.
  intros W b w stackName reply w1 tr o w2 Hb Hrun.
  rewrite run_checkIfStackExists, Hb in Hrun; simpl in Hrun.
  inversion Hrun; subst tr o w2; clear Hrun.
  split; [reflexivity | split; [reflexivity |]].
  repeat split.
  - intros e -> Hmsg. simpl. unfold describeFailed.
    rewrite Hmsg, String.eqb_refl. reflexivity.
  - intros stack -> Hempty. simpl. unfold described. rewrite Hempty. reflexivity.
  - intros e -> Hmsg. simpl. unfold describeFailed.
    destruct (String.eqb _ _) eqn:E; [apply String.eqb_eq in E; contradiction | reflexivity].
  - destruct reply as [stack | e']; simpl in H; [discriminate |].
    unfold describeFailed in H.
    destruct (String.eqb _ _); [discriminate | congruence].
  - destruct reply as [stack | e']; simpl in H; [discriminate |].
    unfold describeFailed in H.
    destruct (String.eqb (err_message e') _) eqn:E; [discriminate |].
    inversion H; subst e'. intros Hmsg. rewrite Hmsg, String.eqb_refl in E. discriminate.
Qed.

Lemma probe_maps_stack_not_found_to_absent_witness :
  cloud testSettings (DescribeStacksCommand "genezio-shop") (mkCloud false None)
  = (Rejected (stackNotFound "genezio-shop"), mkCloud false None)
  /\ run (cloud testSettings) (checkIfStackExists "genezio-shop") (mkCloud false None)
     = ([Ev (DescribeStacksCommand "genezio-shop")
           (Rejected (stackNotFound "genezio-shop"))],
        Fulfilled absent, mkCloud false None)
  /\ (forall e, @Rejected DescribeStacksCommandOutput (stackNotFound "genezio-shop")
                = Rejected e ->
                err_message e = "Stack with id " ++ "genezio-shop" ++ " does not exist" ->
                Fulfilled absent = Fulfilled absent).
Proof.
  split; [reflexivity | split; [reflexivity |]].
  apply (probe_maps_stack_not_found_to_absent Cloud (cloud testSettings)
           (mkCloud false None) "genezio-shop"
           (Rejected (stackNotFound "genezio-shop")) (mkCloud false None)
           [Ev (DescribeStacksCommand "genezio-shop")
              (Rejected (stackNotFound "genezio-shop"))]
           (Fulfilled absent) (mkCloud false None)); reflexivity.
Defined.

(** ** Convergence *)

Ltac answer b H :=
  match type of H with
  | context [b ?c ?w] =>
      let r := fresh "r" in
      let w1 := fresh "w" in
      let E := fresh "E" in
      destruct (b c w) as [[r | r] w1] eqn:E; simpl in H
  end.

(** The calls of each branch of [converge] are those of the row of the
    probed state, in the row's order; all of them when the branch completes. *)
Lemma converge_follows_row {W : Type} (b : Backend W) (probe : StackProbe)
  (template stackName : string) (w : W) (tr : list Event) (o : outcome unit) (w' : W) :
  run b (converge probe template stackName) w = (tr, o, w') ->
  (exists later,
      stateMachineRow (probedState probe) template stackName = (calls tr ++ later)%list)
  /\ (forall u, o = Fulfilled u ->
                calls tr = stateMachineRow (probedState probe) template stackName).
Proof.
  intros Hrun. destruct probe as [[|] status]; unfold converge, probedState in *;
    simpl in *.
  - destruct status as [status |]; simpl in *;
      [destruct (String.eqb status "ROLLBACK_COMPLETE"); simpl in * |];
      repeat (answer b Hrun); inversion Hrun; subst; simpl;
      (split; [eexists; reflexivity | intros u Hu; try discriminate; reflexivity]).
  - repeat (answer b Hrun); inversion Hrun; subst; simpl;
      (split; [eexists; reflexivity | intros u Hu; try discriminate; reflexivity]).
Qed.




(** ** One class *)

Lemma fold_addResource_map {A : Type} (name : A -> string) (content : A -> value)
  (l : list A) (b : GenezioCloudFormationBuilder) :
  List.fold_left (fun t m => addResource (name m) (content m) t) l b
  = addResources (List.map (fun m => (name m, content m)) l) b.
Proof.
  revert b; induction l as [| m tl IH]; intros b; simpl; [reflexivity |].
  rewrite IH; reflexivity.
Qed.

(** A class that is deployed has exchanged exactly three calls, all
    successful, and has added its resources to the template. *)
Lemma deployItem_fulfilled {W : Type} (b : Backend W)
  (pc : ProjectConfiguration) (bucketName api : string) (inputItem : GenezioCloudInput)
  (t t' : GenezioCloudFormationBuilder) (w w' : W) (tr : list Event) :
  run b (deployItem pc bucketName api inputItem t) w = (tr, Fulfilled t', w') ->
  exists c runtime content upload stored,
    classOf pc inputItem = Some c
    /\ getFunctionRuntime (class_language c) = Fulfilled runtime
    /\ tr = itemExchange pc bucketName inputItem content upload stored
    /\ t' = addResources
              (itemResources pc bucketName api inputItem runtime (head_VersionId stored)) t.
Proof.
  intros Hrun. unfold deployItem, uploadZipToS3, getLatestObjectVersion in Hrun.
  simpl in Hrun.
  answer b Hrun; [| discriminate].
  answer b Hrun; [| discriminate].
  destruct (classOf pc inputItem) as [c |] eqn:Hclass; simpl in Hrun; [| discriminate].
  destruct (getFunctionRuntime (class_language c)) as [runtime | e] eqn:Hruntime;
    simpl in Hrun; [| discriminate].
  answer b Hrun; [| discriminate].
  inversion Hrun; subst tr t' w'; clear Hrun.
  exists c, runtime, r, r0, r1.
  repeat split; try reflexivity; try assumption.
  unfold itemResources, earlyResources. rewrite Hclass.
  rewrite !addResources_app. simpl.
  rewrite fold_addResource_map. reflexivity.
Qed.

Lemma deployItem_no_stack_call {W : Type} (b : Backend W)
  (pc : ProjectConfiguration) (bucketName api : string) (inputItem : GenezioCloudInput)
  (t : GenezioCloudFormationBuilder) (w w' : W) (tr : list Event)
  (o : outcome GenezioCloudFormationBuilder) :
  run b (deployItem pc bucketName api inputItem t) w = (tr, o, w') ->
  no_stack_call tr.
Proof.
  intros Hrun. unfold deployItem, uploadZipToS3, getLatestObjectVersion in Hrun.
  simpl in Hrun.
  answer b Hrun; [| inversion Hrun; repeat constructor].
  answer b Hrun; [| inversion Hrun; repeat constructor].
  destruct (classOf pc inputItem) as [c |]; simpl in Hrun;
    [| inversion Hrun; repeat constructor].
  destruct (getFunctionRuntime (class_language c)) as [runtime | e];
    simpl in Hrun; [| inversion Hrun; repeat constructor].
  answer b Hrun; inversion Hrun; repeat constructor.
Qed.

(** A class whose language has no runtime is never deployed; when its upload
    goes well the error is the one of [getFunctionRuntime], thrown after the
    upload and before the version is read back. *)
Lemma deployItem_unsupported {W : Type} (b : Backend W)
  (pc : ProjectConfiguration) (bucketName api : string) (inputItem : GenezioCloudInput)
  (t : GenezioCloudFormationBuilder) (w w' : W) (tr : list Event)
  (o : outcome GenezioCloudFormationBuilder) (c : ClassConfiguration) (e : JsError) :
  classOf pc inputItem = Some c ->
  getFunctionRuntime (class_language c) = Rejected e ->
  run b (deployItem pc bucketName api inputItem t) w = (tr, o, w') ->
  (exists e', o = Rejected e')
  /\ (forallb went_well tr = true ->
      o = Rejected e
      /\ exists content upload,
          tr = [Ev (readFileSync (input_archivePath inputItem)) (Fulfilled content);
                Ev (PutObjectCommand content bucketName (bucketKeyOf pc inputItem))
                  (Fulfilled upload)]).
Proof.
  intros Hclass Hruntime Hrun.
  unfold deployItem, uploadZipToS3, getLatestObjectVersion in Hrun.
  simpl in Hrun. rewrite Hclass in Hrun.
  answer b Hrun.
  - answer b Hrun.
    + rewrite Hruntime in Hrun; simpl in Hrun.
      inversion Hrun; subst tr o w'; clear Hrun.
      split; [eexists; reflexivity |]. intros _.
      split; [reflexivity | exists r, r0; reflexivity].
    + inversion Hrun; subst tr o w'; clear Hrun.
      split; [eexists; reflexivity |]. simpl; intros H; discriminate.
  - inversion Hrun; subst tr o w'; clear Hrun.
    split; [eexists; reflexivity |]. simpl; intros H; discriminate.
Qed.

Lemma getFunctionRuntime_rejected (language : string) (e : JsError) :
  getFunctionRuntime language = Rejected e ->
  e = Error ("Unsupported language: " ++ language).
Proof.
  unfold getFunctionRuntime.
  repeat (destruct (String.eqb language _); [discriminate |]).
  intros H; inversion H; reflexivity.
Qed.

(** The table of the specification is the one [getFunctionRuntime] has in
    its cases: a language of the table gets the runtime of the table, any
    other language the unsupported-language error. *)
Lemma getFunctionRuntime_table (language : string) :
  (exists runtime,
      In (language, runtime) runtimeTable
      /\ getFunctionRuntime language = Fulfilled runtime)
  \/ (~ In language (List.map fst runtimeTable)
      /\ getFunctionRuntime language
         = Rejected (Error ("Unsupported language: " ++ language))).
Proof.
  unfold getFunctionRuntime.
  destruct (String.eqb language ".js") eqn:Ejs.
  { apply String.eqb_eq in Ejs; subst. left; eexists; split; [left |]; reflexivity. }
  destruct (String.eqb language ".ts") eqn:Ets.
  { apply String.eqb_eq in Ets; subst. left; eexists; split; [right; left |]; reflexivity. }
  destruct (String.eqb language ".dart") eqn:Edart.
  { apply String.eqb_eq in Edart; subst.
    left; eexists; split; [right; right; left |]; reflexivity. }
  right; split; [| reflexivity].
  simpl. intros [H | [H | [H | []]]]; subst;
    rewrite String.eqb_refl in *; discriminate.
Qed.

Lemma getFunctionRuntime_outside (language : string) :
  ~ In language (List.map fst runtimeTable) ->
  getFunctionRuntime language = Rejected (Error ("Unsupported language: " ++ language)).
Proof.
  intros Hout. destruct (getFunctionRuntime_table language) as [(r & Hin & _) | [_ H]];
    [| exact H].
  exfalso. apply Hout. change language with (fst (language, r)). apply in_map. exact Hin.
Qed.

Lemma getFunctionRuntime_rejected_outside (language : string) (e : JsError) :
  getFunctionRuntime language = Rejected e ->
  ~ In language (List.map fst runtimeTable).
Proof.
  intros Hrej. destruct (getFunctionRuntime_table language) as [(r & _ & H) | [H _]];
    [congruence | exact H].
Qed.

(** ** The loop over the classes *)

Lemma for_of_deployItem_fulfilled {W : Type} (b : Backend W)
  (pc : ProjectConfiguration) (bucketName api : string) (input : list GenezioCloudInput) :
  forall (t t' : GenezioCloudFormationBuilder) (w w' : W) (tr : list Event),
    run b (for_of (deployItem pc bucketName api) input t) w = (tr, Fulfilled t', w') ->
    exists rs, Synthesized pc bucketName api input tr rs /\ t' = addResources rs t.
Proof.
  induction input as [| inputItem rest IH]; intros t t' w w' tr Hrun.
  - simpl in Hrun. inversion Hrun; subst. exists []; split; [constructor | reflexivity].
  - cbn [for_of] in Hrun. rewrite run_bind in Hrun.
    destruct (run b (deployItem pc bucketName api inputItem t) w) as [[tr1 o1] w1] eqn:Hitem.
    destruct o1 as [t1 | e]; [| discriminate].
    destruct (run b (for_of (deployItem pc bucketName api) rest t1) w1)
      as [[tr2 o2] w2] eqn:Hrest.
    inversion Hrun; subst tr o2 w2; clear Hrun.
    destruct (deployItem_fulfilled b pc bucketName api inputItem t t1 w w1 tr1 Hitem)
      as (c & runtime & content & upload & stored & Hclass & Hruntime & Htr1 & Ht1).
    destruct (IH t1 t' w1 w' tr2 Hrest) as (rs & Hsyn & Ht').
    subst tr1 t1 t'.
    eexists; split.
    + econstructor; eassumption.
    + rewrite addResources_app; reflexivity.
Qed.

Lemma for_of_deployItem_no_stack_call {W : Type} (b : Backend W)
  (pc : ProjectConfiguration) (bucketName api : string) (input : list GenezioCloudInput) :
  forall (t : GenezioCloudFormationBuilder) (w w' : W) (tr : list Event)
         (o : outcome GenezioCloudFormationBuilder),
    run b (for_of (deployItem pc bucketName api) input t) w = (tr, o, w') ->
    no_stack_call tr.
Proof.
  induction input as [| inputItem rest IH]; intros t w w' tr o Hrun.
  - simpl in Hrun. inversion Hrun; constructor.
  - cbn [for_of] in Hrun. rewrite run_bind in Hrun.
    destruct (run b (deployItem pc bucketName api inputItem t) w) as [[tr1 o1] w1] eqn:Hitem.
    apply deployItem_no_stack_call in Hitem.
    destruct o1 as [t1 | e].
    + destruct (run b (for_of (deployItem pc bucketName api) rest t1) w1)
        as [[tr2 o2] w2] eqn:Hrest.
      inversion Hrun; subst. apply Forall_app; split; [exact Hitem | eapply IH; eassumption].
    + inversion Hrun; subst; exact Hitem.
Qed.

(** A project with a class whose language has no runtime is never
    synthesized.  When every class has a configuration and every call goes
    well, the error is the unsupported-language error of such a class, thrown
    after the archive of that class was uploaded. *)
Lemma for_of_deployItem_unsupported {W : Type} (b : Backend W)
  (pc : ProjectConfiguration) (bucketName api : string) (input : list GenezioCloudInput) :
  forall (t : GenezioCloudFormationBuilder) (w w' : W) (tr : list Event)
         (o : outcome GenezioCloudFormationBuilder),
    Exists (unsupported pc) input ->
    run b (for_of (deployItem pc bucketName api) input t) w = (tr, o, w') ->
    (exists e, o = Rejected e)
    /\ (Forall (fun inputItem => classOf pc inputItem <> None) input ->
        forallb went_well tr = true ->
        exists inputItem c content,
          In inputItem input
          /\ classOf pc inputItem = Some c
          /\ ~ In (class_language c) (List.map fst runtimeTable)
          /\ o = Rejected (Error ("Unsupported language: " ++ class_language c))
          /\ In (PutObjectCommand content bucketName (bucketKeyOf pc inputItem)) (calls tr)).
Proof.
  induction input as [| inputItem rest IH]; intros t w w' tr o Hex Hrun.
  - inversion Hex.
  - cbn [for_of] in Hrun. rewrite run_bind in Hrun.
    destruct (run b (deployItem pc bucketName api inputItem t) w) as [[tr1 o1] w1] eqn:Hitem.
    destruct o1 as [t1 | e1].
    + destruct (run b (for_of (deployItem pc bucketName api) rest t1) w1)
        as [[tr2 o2] w2] eqn:Hrest.
      inversion Hrun; subst tr o w'; clear Hrun.
      destruct (deployItem_fulfilled b pc bucketName api inputItem t t1 w w1 tr1 Hitem)
        as (c & runtime & _ & _ & _ & Hclass & Hruntime & _ & _).
      assert (Hex' : Exists (unsupported pc) rest).
      { inversion Hex as [x l Hbad | x l Hlater]; subst; [| exact Hlater].
        destruct Hbad as (c' & Hclass' & Hout').
        assert (c' = c) by congruence. subst c'.
        apply getFunctionRuntime_outside in Hout'. congruence. }
      destruct (IH t1 w1 w2 tr2 o2 Hex' Hrest) as [Hrej Hexact].
      split; [exact Hrej |].
      intros Hall Hwell. rewrite forallb_app in Hwell.
      apply andb_true_iff in Hwell; destruct Hwell as [_ Hwell2].
      inversion Hall as [| x l _ Hall']; subst.
      destruct (Hexact Hall' Hwell2) as (it & c' & content & Hin & Hc' & Hout' & Ho & Hput).
      exists it, c', content.
      split; [right; exact Hin |]. split; [exact Hc' |]. split; [exact Hout' |].
      split; [exact Ho |].
      unfold calls in *. rewrite map_app. apply in_or_app; right; exact Hput.
    + inversion Hrun; subst tr o w'; clear Hrun.
      split; [eexists; reflexivity |].
      intros Hall Hwell. inversion Hall as [| x l Hsome _]; subst.
      destruct (classOf pc inputItem) as [c |] eqn:Hclass; [| contradiction].
      destruct (getFunctionRuntime (class_language c)) as [runtime | e] eqn:Hruntime.
      * (* the class is supported: its calls went well, so it was deployed *)
        exfalso. clear - Hitem Hclass Hruntime Hwell.
        unfold deployItem, uploadZipToS3, getLatestObjectVersion in Hitem.
        simpl in Hitem. rewrite Hclass in Hitem.
        answer b Hitem; [| inversion Hitem; subst; discriminate].
        answer b Hitem; [| inversion Hitem; subst; discriminate].
        rewrite Hruntime in Hitem; simpl in Hitem.
        answer b Hitem; inversion Hitem; subst; discriminate.
      * destruct (deployItem_unsupported b pc bucketName api inputItem t w w1 tr1
                    (Rejected e1) c e Hclass Hruntime Hitem) as [_ Hexact].
        destruct (Hexact Hwell) as (Ho & content & upload & Htr1).
        pose proof (getFunctionRuntime_rejected_outside _ _ Hruntime) as Hout.
        apply getFunctionRuntime_rejected in Hruntime.
        exists inputItem, c, content.
        split; [left; reflexivity |]. split; [exact Hclass |]. split; [exact Hout |].
        split; [congruence |].
        subst tr1; simpl. right; left; reflexivity.
Qed.

(** ** The phases of deploy *)

Lemma prepareBucket_no_stack_call {W : Type} (b : Backend W)
  (credentials : option string) (bucketName region : string)
  (w w' : W) (tr : list Event) (o : outcome unit) :
  run b (prepareBucket credentials bucketName region) w = (tr, o, w') ->
  no_stack_call tr
  /\ In (headBucket bucketName) (calls tr)
  /\ (credentials = None -> o = Rejected (Error "AWS credentials not found")).
Proof.
  intros Hrun. unfold prepareBucket, bucketForProjectExists in Hrun. simpl in Hrun.
  answer b Hrun; destruct credentials as [key |]; simpl in Hrun;
    repeat (answer b Hrun); inversion Hrun; subst; simpl;
    (split; [repeat constructor
            | split; [left; reflexivity | intros Hc; try discriminate; reflexivity]]).
Qed.

Lemma run_deploy {W : Type} (b : Backend W) (credentials : option string)
  (input : list GenezioCloudInput) (pc : ProjectConfiguration) (w : W) :
  run b (deploy credentials input pc) w =
  if String.eqb (project_region pc) "" then ([], Rejected (Error "Region is missing"), w)
  else
  let '(tr1, o1, w1) :=
    run b (prepareBucket credentials (bucketNameOf pc) (project_region pc)) w in
  match o1 with
  | Rejected e => (tr1, Rejected e, w1)
  | Fulfilled _ =>
      let '(tr2, o2, w2) :=
        run b (synthesize pc (bucketNameOf pc) (apiGatewayResourceNameOf pc) input) w1 in
      match o2 with
      | Rejected e => ((tr1 ++ tr2)%list, Rejected e, w2)
      | Fulfilled t =>
          let '(tr3, o3, w3) := run b (updateStack (build t) (stackNameOf pc)) w2 in
          match o3 with
          | Rejected e => ((tr1 ++ tr2 ++ tr3)%list, Rejected e, w3)
          | Fulfilled _ =>
              let (r, w4) := b (DescribeStacksCommand (stackNameOf pc)) w3 in
              ((tr1 ++ tr2 ++ tr3 ++ [Ev (DescribeStacksCommand (stackNameOf pc)) r])%list,
               match r with
               | Fulfilled stackDetails => resolve stackDetails input
               | Rejected e => Rejected e
               end, w4)
          end
      end
  end.
Proof.
  unfold deploy, newClient.
  destruct (String.eqb (project_region pc) ""); [reflexivity |].
  cbn [settle bind]. rewrite run_bind.
  destruct (run b (prepareBucket _ _ _) w) as [[tr1 [u1 | e1]] w1]; [| reflexivity].
  rewrite run_bind.
  destruct (run b (synthesize _ _ _ _) w1) as [[tr2 [t | e2]] w2]; [| reflexivity].
  rewrite run_bind.
  destruct (run b (updateStack _ _) w2) as [[tr3 [u3 | e3]] w3]; [| reflexivity].
  rewrite run_bind, run_send.
  destruct (b (DescribeStacksCommand (stackNameOf pc)) w3) as [[stackDetails | e4] w4];
    simpl; [| reflexivity].
  rewrite run_settle. reflexivity.
Qed.

(** ** Unsupported languages *)

Lemma no_stack_call_app (tr1 tr2 : list Event) :
  no_stack_call tr1 -> no_stack_call tr2 -> no_stack_call (tr1 ++ tr2).
Proof. intros H1 H2; apply Forall_app; split; assumption. Qed.

(** C4, as the code has it.  When some class of the project has a language
    outside the runtime table, deploy fails, and it fails before any call to
    CloudFormation: the stack is neither described nor created, updated or
    deleted, so no template reaches convergence.  With an empty region deploy
    has made no call at all; otherwise the bucket probe has been issued by
    then.  When moreover the region is not empty, the credentials are there,
    every class has a configuration and every call went well, the error is
    the unsupported-language error of a class whose language is outside the
    table, and the archive of that class has been uploaded before it is
    thrown. *)
Theorem unsupported_language_fails_before_convergence :
  forall (W : Type) (b : Backend W) (w : W) (credentials : option string)
         (input : list GenezioCloudInput) (pc : ProjectConfiguration)
         (tr : list Event) (o : outcome GenezioCloudOutput) (w' : W),
    Exists (unsupported pc) input ->
    run b (deploy credentials input pc) w = (tr, o, w') ->
    (exists e, o = Rejected e)
    /\ no_stack_call tr
    /\ (project_region pc = "" -> tr = [])
    /\ (project_region pc <> "" -> In (headBucket (bucketNameOf pc)) (calls tr))
    /\ (project_region pc <> "" ->
        credentials <> None ->
        Forall (fun inputItem => classOf pc inputItem <> None) input ->
        forallb went_well tr = true ->
        exists inputItem c content,
          In inputItem input
          /\ classOf pc inputItem = Some c
          /\ ~ In (class_language c) (List.map fst runtimeTable)
          /\ o = Rejected (Error ("Unsupported language: " ++ class_language c))
          /\ In (PutObjectCommand content (bucketNameOf pc) (bucketKeyOf pc inputItem))
               (calls tr)).
Proof.
  intros W b w credentials input pc tr o w' Hbad Hrun.
  rewrite run_deploy in Hrun.
  destruct (String.eqb (project_region pc) "") eqn:Hregion.
  { apply String.eqb_eq in Hregion.
    inversion Hrun; subst tr o w'; clear Hrun.
    split; [eexists; reflexivity |]. split; [constructor |].
    split; [reflexivity |]. split; intros Hne; contradiction. }
  apply String.eqb_neq in Hregion.
  destruct (run b (prepareBucket _ _ _) w) as [[tr1 o1] w1] eqn:Hprep.
  destruct (prepareBucket_no_stack_call b _ _ _ w w1 tr1 o1 Hprep) as (Hns1 & Hhead & Hcred).
  destruct o1 as [u1 | e1].
  - destruct (run b (synthesize _ _ _ _) w1) as [[tr2 o2] w2] eqn:Hsyn.
    unfold synthesize in Hsyn.
    pose proof (for_of_deployItem_no_stack_call b _ _ _ _ _ _ _ _ _ Hsyn) as Hns2.
    destruct (for_of_deployItem_unsupported b _ _ _ _ _ _ _ _ _ Hbad Hsyn)
      as [[e2 He2] Hexact].
    subst o2. inversion Hrun; subst tr o w'; clear Hrun.
    split; [eexists; reflexivity |].
    split; [apply no_stack_call_app; assumption |].
    split; [intros Hempty; contradiction |].
    split; [intros _; unfold calls in *; rewrite map_app; apply in_or_app; left; exact Hhead |].
    intros _ _ Hall Hwell. rewrite forallb_app in Hwell.
    apply andb_true_iff in Hwell; destruct Hwell as [_ Hwell2].
    destruct (Hexact Hall Hwell2) as (it & c & content & Hin & Hc & Hout & Ho & Hput).
    inversion Ho; subst e2.
    exists it, c, content.
    split; [exact Hin |]. split; [exact Hc |]. split; [exact Hout |].
    split; [reflexivity |].
    unfold calls in *; rewrite map_app; apply in_or_app; right; exact Hput.
  - inversion Hrun; subst tr o w'; clear Hrun.
    split; [eexists; reflexivity |].
    split; [exact Hns1 |]. split; [intros Hempty; contradiction |].
    split; [intros _; exact Hhead |].
    intros _ Hsome Hall Hwell. exfalso.
    (* the preparation only fails without credentials or on a failed call *)
    clear - Hprep Hsome Hwell.
    unfold prepareBucket, bucketForProjectExists in Hprep. simpl in Hprep.
    destruct credentials as [key |]; [| contradiction].
    answer b Hprep; repeat (try (inversion Hprep; subst; discriminate); try answer b Hprep).
Qed.

Lemma pythonProject_unsupported : Exists (unsupported pythonProject) pythonInput.
Proof.
  left. exists (mkClass "orders.py" ".py" [mkMethod "list" "jsonrpc" None]).
  split; [reflexivity |]. simpl. intros [H | [H | [H | []]]]; discriminate.
Qed.

Lemma unsupported_language_fails_before_convergence_witness :
  Exists (unsupported pythonProject) pythonInput
  /\ let '(tr, o, _) :=
       run (cloud testSettings) (deploy (Some "AKIA") pythonInput pythonProject)
         (mkCloud false None) in
     (exists e, o = Rejected e)
     /\ no_stack_call tr
     /\ In (headBucket "bucket-us-east-1-shop") (calls tr)
     /\ exists inputItem c content,
         In inputItem pythonInput
         /\ classOf pythonProject inputItem = Some c
         /\ ~ In (class_language c) (List.map fst runtimeTable)
         /\ o = Rejected (Error ("Unsupported language: " ++ class_language c))
         /\ In (PutObjectCommand content "bucket-us-east-1-shop"
                  (bucketKeyOf pythonProject inputItem)) (calls tr).
Proof.
  split; [exact pythonProject_unsupported |].
  destruct (run (cloud testSettings) (deploy (Some "AKIA") pythonInput pythonProject)
              (mkCloud false None)) as [[tr o] w'] eqn:Hrun.
  pose proof (unsupported_language_fails_before_convergence Cloud (cloud testSettings)
                (mkCloud false None) (Some "AKIA") pythonInput pythonProject
                tr o w' pythonProject_unsupported Hrun)
    as (Hfail & Hnone & _ & Hprobe & Hexact).
  vm_compute in Hrun. inversion Hrun; subst tr o w'; clear Hrun.
  split; [exact Hfail |]. split; [exact Hnone |].
  split; [apply Hprobe; discriminate |].
  apply Hexact; [discriminate | discriminate | | reflexivity].
  repeat constructor; discriminate.
Defined.

(** C4, as stated, does not hold: for the project whose only class is
    written in Python, deploy does throw the unsupported-language error, but
    only after it has probed and created the bucket, switched versioning on
    and uploaded the archive of the class. *)
Lemma unsupported_language_is_found_after_upload :
  Exists (unsupported pythonProject) pythonInput
  /\ let '(tr, o, _) :=
       run (cloud testSettings) (deploy (Some "AKIA") pythonInput pythonProject)
         (mkCloud false None) in
     o = Rejected (Error "Unsupported language: .py")
     /\ List.filter is_remote (calls tr)
        = [headBucket "bucket-us-east-1-shop";
           CreateBucketCommand "bucket-us-east-1-shop" None;
           PutBucketVersioningCommand "bucket-us-east-1-shop" "Enabled";
           PutObjectCommand "PK" "bucket-us-east-1-shop" "genezio-shop/lambda-Orders.zip"]
     /\ List.filter is_remote (calls tr) <> [].
Proof.
  split; [exact pythonProject_unsupported |].
  simpl. split; [reflexivity | split; [reflexivity | discriminate]].
Qed.

(** ** The final check of the stack *)

Lemma lastEvent_snoc (tr : list Event) (e : Event) : lastEvent (tr ++ [e]) = Some e.
Proof. unfold lastEvent. rewrite rev_unit. reflexivity. Qed.

Lemma lastEvent_app (tr1 tr2 : list Event) :
  tr2 <> [] -> lastEvent (tr1 ++ tr2) = lastEvent tr2.
Proof.
  intros Hne. destruct (exists_last Hne) as (tr2' & e & ->).
  rewrite app_assoc, !lastEvent_snoc. reflexivity.
Qed.

Lemma no_stack_call_last (tr : list Event) (e : Event) :
  no_stack_call tr -> lastEvent tr = Some e -> described_by e = None.
Proof.
  intros Hns Hlast. unfold lastEvent in Hlast.
  destruct (rev tr) as [| e' tl] eqn:Hrev; [discriminate |].
  inversion Hlast; subst e'.
  assert (Hin : In e tr) by (apply in_rev; rewrite Hrev; left; reflexivity).
  unfold no_stack_call in Hns. rewrite Forall_forall in Hns. specialize (Hns e Hin).
  destruct e as [c r]; destruct c; simpl in *; try reflexivity; discriminate.
Qed.

Ltac unit_replies :=
  repeat match goal with
         | r : Reply _ |- _ => simpl in r; destruct r
         end.

Ltac ends_with_wait :=
  match goal with
  | |- exists before, ?tr = _ \/ _ =>
      exists (removelast tr); simpl; first [left; reflexivity | right; reflexivity]
  end.

Lemma converge_last {W : Type} (b : Backend W) (probe : StackProbe)
  (template stackName : string) (w w' : W) (tr : list Event) (o : outcome unit) :
  run b (converge probe template stackName) w = (tr, o, w') ->
  match o with
  | Fulfilled _ =>
      exists before,
        tr = (before ++ [Ev (waitUntilStackCreateComplete 360 stackName) (Fulfilled tt)])%list
        \/ tr = (before ++ [Ev (waitUntilStackUpdateComplete 360 stackName) (Fulfilled tt)])%list
  | Rejected _ => exists e, lastEvent tr = Some e /\ described_by e = None
  end.
Proof.
  intros Hrun. destruct probe as [[|] status]; unfold converge in Hrun; simpl in Hrun;
    [destruct (status_is status "ROLLBACK_COMPLETE"); simpl in Hrun |];
    repeat (answer b Hrun); inversion Hrun; subst; clear Hrun;
    first [ unit_replies; ends_with_wait
          | eexists; split; reflexivity ].
Qed.

(** How a run of [updateStack] ends: with a fulfilled wait for the creation
    or for the update when it completes, and otherwise with the call that
    failed, which is no fulfilled describe. *)
Lemma updateStack_last {W : Type} (b : Backend W) (template stackName : string)
  (w w' : W) (tr : list Event) (o : outcome unit) :
  run b (updateStack template stackName) w = (tr, o, w') ->
  match o with
  | Fulfilled _ =>
      exists before,
        tr = (before ++ [Ev (waitUntilStackCreateComplete 360 stackName) (Fulfilled tt)])%list
        \/ tr = (before ++ [Ev (waitUntilStackUpdateComplete 360 stackName) (Fulfilled tt)])%list
  | Rejected _ => exists e, lastEvent tr = Some e /\ described_by e = None
  end.
Proof.
  intros Hrun. unfold updateStack in Hrun.
  rewrite run_bind, run_checkIfStackExists in Hrun.
  destruct (b (DescribeStacksCommand stackName) w) as [reply w1]; simpl in Hrun.
  destruct (probeOf stackName reply) as [probe | e0] eqn:Hprobe.
  - destruct (run b (converge probe template stackName) w1) as [[tr2 o2] w2] eqn:Hconv.
    inversion Hrun; subst tr o w'; clear Hrun.
    apply converge_last in Hconv. destruct o2 as [u | e2].
    + destruct Hconv as [before [H | H]]; subst tr2;
        exists (Ev (DescribeStacksCommand stackName) reply :: before);
        [left | right]; reflexivity.
    + destruct Hconv as (e & Hlast & Hnone). exists e; split; [| exact Hnone].
      assert (Hne : tr2 <> []) by (intros ->; discriminate).
      change (Ev (DescribeStacksCommand stackName) reply :: tr2)
        with ([Ev (DescribeStacksCommand stackName) reply] ++ tr2)%list.
      rewrite (lastEvent_app _ tr2 Hne). exact Hlast.
  - inversion Hrun; subst tr o w'; clear Hrun.
    destruct reply as [stack | e1]; simpl in Hprobe; [discriminate |].
    eexists; split; reflexivity.
Qed.

Lemma resolve_fulfilled (stackDetails : DescribeStacksCommandOutput)
  (input : list GenezioCloudInput) (result : GenezioCloudOutput) :
  resolve stackDetails input = Fulfilled result ->
  exists s others,
    Stacks stackDetails = Some (s :: others)
    /\ (StackStatus s = Some "CREATE_COMPLETE" \/ StackStatus s = Some "UPDATE_COMPLETE").
Proof.
  unfold resolve. intros H.
  destruct (Stacks stackDetails) as [[| s others] |]; try discriminate.
  exists s, others; split; [reflexivity |].
  destruct (StackStatus s) as [status |]; simpl in H; [| discriminate].
  destruct (String.eqb status "UPDATE_COMPLETE") eqn:Eu; simpl in H.
  - right. apply String.eqb_eq in Eu; subst; reflexivity.
  - destruct (String.eqb status "CREATE_COMPLETE") eqn:Ec; simpl in H; [| discriminate].
    left. apply String.eqb_eq in Ec; subst; reflexivity.
Qed.

Lemma resolve_degraded (stackDetails : DescribeStacksCommandOutput)
  (input : list GenezioCloudInput) :
  (forall s others,
      Stacks stackDetails = Some (s :: others) ->
      StackStatus s <> Some "CREATE_COMPLETE" /\ StackStatus s <> Some "UPDATE_COMPLETE") ->
  resolve stackDetails input = Rejected (Error "Stack update failed").
Proof.
  unfold resolve. intros H.
  destruct (Stacks stackDetails) as [[| s others] |]; try reflexivity.
  destruct (H s others eq_refl) as [Hc Hu].
  destruct (StackStatus s) as [status |]; simpl; [| reflexivity].
  destruct (String.eqb status "UPDATE_COMPLETE") eqn:Eu; simpl.
  - apply String.eqb_eq in Eu; subst; contradiction.
  - destruct (String.eqb status "CREATE_COMPLETE") eqn:Ec; simpl; [| reflexivity].
    apply String.eqb_eq in Ec; subst; contradiction.
Qed.

(** C7. A deploy that returns a result has, right after the wait that ended
    convergence, described the stack once more, and the first stack of that
    description had the status CREATE_COMPLETE or UPDATE_COMPLETE.  Whenever
    the run ends on a description in which the stacks are missing, or empty,
    or whose first stack has any other status or none, deploy throws the
    error "Stack update failed". *)
Theorem deploy_succeeds_only_on_complete_stack :
  forall (W : Type) (b : Backend W) (w : W) (credentials : option string)
         (input : list GenezioCloudInput) (pc : ProjectConfiguration)
         (tr : list Event) (o : outcome GenezioCloudOutput) (w' : W),
    run b (deploy credentials input pc) w = (tr, o, w') ->
    (forall result, o = Fulfilled result ->
       exists before stackDetails s others,
         (tr = (before
                ++ [Ev (waitUntilStackCreateComplete 360 (stackNameOf pc)) (Fulfilled tt);
                    Ev (DescribeStacksCommand (stackNameOf pc)) (Fulfilled stackDetails)])%list
          \/ tr = (before
                   ++ [Ev (waitUntilStackUpdateComplete 360 (stackNameOf pc)) (Fulfilled tt);
                       Ev (DescribeStacksCommand (stackNameOf pc)) (Fulfilled stackDetails)])%list)
         /\ Stacks stackDetails = Some (s :: others)
         /\ (StackStatus s = Some "CREATE_COMPLETE"
             \/ StackStatus s = Some "UPDATE_COMPLETE"))
    /\ (forall e stackDetails,
          lastEvent tr = Some e ->
          described_by e = Some stackDetails ->
          (forall s others,
              Stacks stackDetails = Some (s :: others) ->
              StackStatus s <> Some "CREATE_COMPLETE"
              /\ StackStatus s <> Some "UPDATE_COMPLETE") ->
          o = Rejected (Error "Stack update failed")).
Proof.
  intros W b w credentials input pc tr o w' Hrun.
  rewrite run_deploy in Hrun.
  destruct (String.eqb (project_region pc) "").
  { inversion Hrun; subst tr o w'; clear Hrun. split; [intros result H; discriminate |].
    intros e stackDetails Hlast. discriminate. }
  destruct (run b (prepareBucket _ _ _) w) as [[tr1 o1] w1] eqn:Hprep.
  destruct (prepareBucket_no_stack_call b _ _ _ w w1 tr1 o1 Hprep) as (Hns1 & _ & _).
  destruct o1 as [u1 | e1].
  2:{ inversion Hrun; subst tr o w'; clear Hrun. split; [intros result H; discriminate |].
      intros e stackDetails Hlast Hdesc _.
      rewrite (no_stack_call_last tr1 e Hns1 Hlast) in Hdesc. discriminate. }
  destruct (run b (synthesize _ _ _ _) w1) as [[tr2 o2] w2] eqn:Hsyn.
  pose proof (for_of_deployItem_no_stack_call b _ _ _ _ _ _ _ _ _ Hsyn) as Hns2.
  destruct o2 as [t | e2].
  2:{ inversion Hrun; subst tr o w'; clear Hrun. split; [intros result H; discriminate |].
      intros e stackDetails Hlast Hdesc _.
      rewrite (no_stack_call_last _ e (no_stack_call_app _ _ Hns1 Hns2) Hlast) in Hdesc.
      discriminate. }
  destruct (run b (updateStack _ _) w2) as [[tr3 o3] w3] eqn:Hupd.
  pose proof (updateStack_last b _ _ _ _ _ _ Hupd) as Hlast3.
  destruct o3 as [u3 | e3].
  2:{ inversion Hrun; subst tr o w'; clear Hrun. split; [intros result H; discriminate |].
      intros e stackDetails Hlast Hdesc _.
      destruct Hlast3 as (e' & Hlast' & Hnone).
      assert (Hne : tr3 <> []) by (intros ->; discriminate).
      rewrite app_assoc, (lastEvent_app _ tr3 Hne), Hlast' in Hlast.
      inversion Hlast; subst e'. rewrite Hnone in Hdesc. discriminate. }
  destruct (b (DescribeStacksCommand (stackNameOf pc)) w3) as [r w4].
  inversion Hrun; subst tr o w'; clear Hrun.
  split.
  - intros result Hres. destruct r as [stackDetails | e4]; [| discriminate].
    destruct (resolve_fulfilled stackDetails input result Hres) as (s & others & Hs & Hst).
    destruct Hlast3 as [before [Hc | Hu]]; subst tr3.
    + exists (tr1 ++ tr2 ++ before)%list, stackDetails, s, others.
      split; [left; rewrite <- !app_assoc; reflexivity | split; assumption].
    + exists (tr1 ++ tr2 ++ before)%list, stackDetails, s, others.
      split; [right; rewrite <- !app_assoc; reflexivity | split; assumption].
  - intros e stackDetails Hlast Hdesc Hbad.
    rewrite !app_assoc, lastEvent_snoc in Hlast. inversion Hlast; subst e.
    destruct r as [stackDetails' | e4]; simpl in Hdesc; [| discriminate].
    inversion Hdesc; subst stackDetails'.
    apply resolve_degraded; exact Hbad.
Qed.

Lemma deploy_succeeds_only_on_complete_stack_witness :
  let '(tr, o, _) :=
    run (cloud testSettings) (deploy (Some "AKIA") (shopInput "jsonrpc") (shop "jsonrpc"))
      (mkCloud true (Some "UPDATE_COMPLETE")) in
  exists result, o = Fulfilled result
  /\ exists before stackDetails s others,
      (tr = (before
             ++ [Ev (waitUntilStackCreateComplete 360 "genezio-shop") (Fulfilled tt);
                 Ev (DescribeStacksCommand "genezio-shop") (Fulfilled stackDetails)])%list
       \/ tr = (before
                ++ [Ev (waitUntilStackUpdateComplete 360 "genezio-shop") (Fulfilled tt);
                    Ev (DescribeStacksCommand "genezio-shop") (Fulfilled stackDetails)])%list)
      /\ Stacks stackDetails = Some (s :: others)
      /\ (StackStatus s = Some "CREATE_COMPLETE" \/ StackStatus s = Some "UPDATE_COMPLETE").
Proof.
  destruct (run (cloud testSettings)
              (deploy (Some "AKIA") (shopInput "jsonrpc") (shop "jsonrpc"))
              (mkCloud true (Some "UPDATE_COMPLETE"))) as [[tr o] w'] eqn:Hrun.
  pose proof (deploy_succeeds_only_on_complete_stack Cloud (cloud testSettings)
                (mkCloud true (Some "UPDATE_COMPLETE")) (Some "AKIA")
                (shopInput "jsonrpc") (shop "jsonrpc") tr o w' Hrun) as [Honly _].
  vm_compute in Hrun. inversion Hrun; subst tr o w'; clear Hrun.
  eexists; split; [reflexivity |].
  exact (Honly _ eq_refl).
Defined.

(** ** The end-to-end scenario *)

(** C5. Project shop in us-east-1 has one class, Orders, written in
    TypeScript, with the http method invoice and the method list of another
    trigger type.  The stack is not there when it is probed; it is created,
    the wait for it succeeds, and the stack is then described as
    CREATE_COMPLETE with the output https://abc123.example/prod.  Then deploy
    returns exactly: Orders at https://abc123.example/prod/Orders, invoice at
    https://abc123.example/prod/Orders/invoice and list at the URL of the
    class.  This holds whether or not the bucket was there, and whatever the
    archive, the version ids and the access key are. *)
Theorem deploy_orders_end_to_end :
  forall (kind : string) (bucketExists : bool) (content : string)
         (uploaded stored : option string) (accessKeyId : string),
    kind <> "http" ->
    snd (fst (run
                (cloud (mkCloudSettings content uploaded stored
                          (Some "https://abc123.example/prod")))
                (deploy (Some accessKeyId) (shopInput kind) (shop kind))
                (mkCloud bucketExists None)))
    = Fulfilled
        {| classes :=
             [{| className := "Orders";
                 result_methods :=
                   [{| result_method_name := "invoice";
                       result_method_type := "http";
                       result_method_cronString := None;
                       result_method_functionUrl :=
                         "https://abc123.example/prod/Orders/invoice" |};
                    {| result_method_name := "list";
                       result_method_type := kind;
                       result_method_cronString := None;
                       result_method_functionUrl :=
                         "https://abc123.example/prod/Orders" |}];
                 functionUrl := "https://abc123.example/prod/Orders" |}] |}.
Proof.
  intros kind bucketExists content uploaded stored accessKeyId Hkind.
  assert (E : String.eqb kind "http" = false).
  { destruct (String.eqb kind "http") eqn:E; [| reflexivity].
    apply String.eqb_eq in E; contradiction. }
  destruct bucketExists; vm_compute; vm_compute in E; rewrite E; reflexivity.
Qed.

Lemma deploy_orders_end_to_end_witness :
  "jsonrpc" <> "http"
  /\ snd (fst (run (cloud testSettings)
                 (deploy (Some "AKIA") (shopInput "jsonrpc") (shop "jsonrpc"))
                 (mkCloud false None)))
     = Fulfilled
         {| classes :=
              [{| className := "Orders";
                  result_methods :=
                    [{| result_method_name := "invoice";
                        result_method_type := "http";
                        result_method_cronString := None;
                        result_method_functionUrl :=
                          "https://abc123.example/prod/Orders/invoice" |};
                     {| result_method_name := "list";
                        result_method_type := "jsonrpc";
                        result_method_cronString := None;
                        result_method_functionUrl :=
                          "https://abc123.example/prod/Orders" |}];
                  functionUrl := "https://abc123.example/prod/Orders" |}] |}.
Proof.
  split; [discriminate |].
  apply (deploy_orders_end_to_end "jsonrpc" false "PK" (Some "v-upload") (Some "v-stored")
           "AKIA").
  discriminate.
Defined.

(** ** The synthesized template *)




Lemma itemResources_class_ids (pc : ProjectConfiguration) (bucketName api : string)
  (inputItem : GenezioCloudInput) (runtime : string) (version : option string) :
  Forall (fun r => class_id (fst r))
    (itemResources pc bucketName api inputItem runtime version).
Proof.
  unfold itemResources, earlyResources.
  repeat (apply Forall_app; split); repeat constructor; simpl; try discriminate.
  apply Forall_forall. intros r Hin. apply in_map_iff in Hin.
  destruct Hin as (m & <- & _). simpl. discriminate.
Qed.

Lemma Synthesized_class_ids (pc : ProjectConfiguration) (bucketName api : string)
  (input : list GenezioCloudInput) (tr : list Event) (rs : list (string * value)) :
  Synthesized pc bucketName api input tr rs ->
  Forall (fun r => class_id (fst r)) rs.
Proof.
  induction 1; [constructor |].
  apply Forall_app; split; [apply itemResources_class_ids | assumption].
Qed.

Lemma class_id_not_in (k : string) (rs : list (string * value)) :
  Forall (fun r => class_id (fst r)) rs -> ~ class_id k -> ~ In k (List.map fst rs).
Proof.
  intros Hall Hk Hin. apply in_map_iff in Hin. destruct Hin as (r & <- & Hin).
  rewrite Forall_forall in Hall. apply Hk, Hall, Hin.
Qed.

Lemma get_member_addResources_last (rs1 rs2 : list (string * value)) (k : string) (v : value)
  (b : GenezioCloudFormationBuilder) :
  ~ In k (List.map fst rs2) ->
  get_member k (Resources (template (addResources (rs1 ++ (k, v) :: rs2) b))) = Some v.
Proof.
  revert rs1 b. induction rs2 as [| [k' v'] rs2 IH] using rev_ind; intros rs1 b Hnotin.
  - rewrite addResources_app. simpl. apply get_member_set_member_same.
  - rewrite app_comm_cons, app_assoc, addResources_app. simpl.
    rewrite map_app in Hnotin; simpl in Hnotin.
    rewrite get_member_set_member_other.
    + apply IH. intros Hin; apply Hnotin, in_or_app; left; exact Hin.
    + intros ->. apply Hnotin, in_or_app; right; left; reflexivity.
Qed.

Lemma itemResources_ids (pc : ProjectConfiguration) (bucketName api : string)
  (inputItem : GenezioCloudInput) (runtime : string) (version : option string) :
  List.map fst (itemResources pc bucketName api inputItem runtime version)
  = itemIds pc inputItem.
Proof.
  unfold itemResources, earlyResources, itemIds.
  rewrite !map_app, map_map. simpl. rewrite <- !app_assoc. reflexivity.
Qed.

Lemma Synthesized_ids (pc : ProjectConfiguration) (bucketName api : string)
  (input : list GenezioCloudInput) (tr : list Event) (rs : list (string * value)) :
  Synthesized pc bucketName api input tr rs ->
  List.map fst rs = List.flat_map (itemIds pc) input.
Proof.
  induction 1; [reflexivity |].
  rewrite map_app, itemResources_ids, IHSynthesized. reflexivity.
Qed.

Lemma append_inj_l (s a b : string) : s ++ a = s ++ b -> a = b.
Proof.
  induction s as [| c s IH]; simpl; intros H; [exact H |].
  inversion H. apply IH. assumption.
Qed.

Lemma append_eq_self (s a : string) : s ++ a = s -> a = EmptyString.
Proof.
  induction s as [| c s IH]; simpl; intros H; [exact H |].
  inversion H. apply IH. assumption.
Qed.

Lemma get_path_resource (t : Template) (k : string) (rest : list string) :
  get_path ("Resources" :: k :: rest) (template_value t)
  = match get_member k (Resources t) with
    | Some v => get_path rest v
    | None => None
    end.
Proof. reflexivity. Qed.


(** ** Version pinning *)








(** ** Routes *)









(** Ids also collide between classes whose sanitized names differ: when two
    classes produce the same route id, the later route takes the place of the
    earlier one in the template. *)
Example colliding_ids_lose_a_route :
  let '(_, o, _) :=
    run (cloud testSettings)
      (synthesize collidingProject (bucketNameOf collidingProject)
         (apiGatewayResourceNameOf collidingProject) collidingInput)
      (mkCloud true None) in
  exists builder,
    o = Fulfilled builder
    /\ ~ NoDup (resourceIds builder)
    /\ List.map fst (routeTable (built builder)) = ["ANY /Ab/c"; "ANY /A"; "ANY /Ab"]
    /\ List.map fst (List.flat_map (expectedRoutes collidingProject) collidingInput)
       = ["ANY /A/bc"; "ANY /A"; "ANY /Ab/c"; "ANY /Ab"].
Proof.
  vm_compute. eexists; split; [reflexivity |].
  split; [| split; reflexivity].
  intros Hnd. apply NoDup_cons_iff in Hnd. destruct Hnd as [_ Hnd].
  apply NoDup_cons_iff in Hnd. destruct Hnd as [Hnotin _].
  apply Hnotin. simpl. right; right; right; right; right. left. reflexivity.
Qed.

(** ** The language gate of the command *)

(** The languages for which [deployClasses] has no bundler are those for
    which the adapter has no runtime: a class that reaches the adapter
    through the command has a supported language. *)
Lemma selectBundler_rejects_what_has_no_runtime (language : string) :
  (exists e, selectBundler language = Rejected e)
  <-> (exists e, getFunctionRuntime language = Rejected e).
Proof.
  unfold selectBundler, getFunctionRuntime.
  destruct (String.eqb language ".ts"), (String.eqb language ".js"),
    (String.eqb language ".dart"); split; intros [e H];
    try discriminate; eexists; reflexivity.
Qed.

(** * Further properties of the adapter *)

(** ** Sanitized ids *)

Lemma alphanumericString_app (s1 s2 : string) :
  alphanumericString (s1 ++ s2) = alphanumericString s1 ++ alphanumericString s2.
Proof.
  induction s1 as [| c tl IH]; simpl; [reflexivity |].
  destruct (is_alphanumeric c); simpl; rewrite IH; reflexivity.
Qed.

(** X1. A sanitized name is made of the letters and digits of the name, in
    their order: it holds nothing else, and sanitizing it again changes
    nothing. *)
Theorem alphanumericString_is_clean_and_stable :
  forall input : string,
    Forall (fun c => is_alphanumeric c = true) (chars (alphanumericString input))
    /\ chars (alphanumericString input) = List.filter is_alphanumeric (chars input)
    /\ alphanumericString (alphanumericString input) = alphanumericString input.
Proof.
  intros input. induction input as [| c tl (IHclean & IHfilter & IHstable)]; simpl.
  - repeat split; constructor.
  - destruct (is_alphanumeric c) eqn:E; simpl.
    + rewrite E, IHstable, IHfilter. repeat split.
      constructor; [exact E |]. rewrite <- IHfilter; exact IHclean.
    + repeat split; assumption.
Qed.

(** X2. Names that differ only by characters other than letters and digits
    get the same sanitized name, hence the same resource ids. *)
Theorem alphanumericString_forgets_separators :
  forall (s1 s2 : string) (c : ascii),
    is_alphanumeric c = false ->
    alphanumericString (s1 ++ String c s2) = alphanumericString (s1 ++ s2).
Proof.
  intros s1 s2 c Hc. rewrite !alphanumericString_app. simpl. rewrite Hc. reflexivity.
Qed.

Lemma alphanumericString_forgets_separators_witness :
  is_alphanumeric "-" = false
  /\ alphanumericString "My-Class" = alphanumericString "MyClass".
Proof.
  split; [reflexivity |].
  apply (alphanumericString_forgets_separators "My" "Class" "-"). reflexivity.
Defined.

(** ** The template as a keyed object *)

Lemma keys_set_member (k : string) (x : value) (ms : list (string * value)) (a : string) :
  In a (List.map fst (set_member k x ms)) -> a = k \/ In a (List.map fst ms).
Proof.
  induction ms as [| [k' v] tl IH]; simpl.
  - intros [H | []]; left; symmetry; exact H.
  - destruct (String.eqb k' k) eqn:E; simpl.
    + intros H; right; exact H.
    + intros [H | H]; [right; left; exact H |].
      destruct (IH H) as [Hk | Hin]; [left; exact Hk | right; right; exact Hin].
Qed.

Lemma NoDup_set_member (k : string) (x : value) (ms : list (string * value)) :
  NoDup (List.map fst ms) -> NoDup (List.map fst (set_member k x ms)).
Proof.
  induction ms as [| [k' v] tl IH]; simpl; intros Hnd.
  - constructor; [intros [] | constructor].
  - apply NoDup_cons_iff in Hnd. destruct Hnd as [Hnotin Hnd].
    destruct (String.eqb k' k) eqn:E; simpl.
    + constructor; assumption.
    + constructor; [| apply IH; exact Hnd].
      intros Hin. apply keys_set_member in Hin. destruct Hin as [Hk | Hin].
      * subst k'. rewrite String.eqb_refl in E. discriminate.
      * contradiction.
Qed.

Lemma NoDup_Resources_addResources (rs : list (string * value)) :
  forall b : GenezioCloudFormationBuilder,
    NoDup (List.map fst (Resources (template b))) ->
    NoDup (List.map fst (Resources (template (addResources rs b)))).
Proof.
  induction rs as [| [name content] tl IH]; intros b Hnd; simpl; [exact Hnd |].
  unfold addResources in *; simpl. apply IH. simpl. apply NoDup_set_member. exact Hnd.
Qed.

(** However resources are added, with names repeated or not, the resources
    of the template, built or not, are keyed by pairwise different ids. *)
Lemma template_ids_are_unique :
  forall (api : string) (added : list (string * value)),
    NoDup (List.map fst (Resources (template (addResources added (newBuilder api)))))
    /\ NoDup (List.map fst (Resources (built (addResources added (newBuilder api))))).
Proof.
  intros api added.
  assert (H : NoDup (List.map fst
                       (Resources (template (addResources added (newBuilder api)))))).
  { apply NoDup_Resources_addResources. simpl. constructor; [intros [] | constructor]. }
  split; [exact H |].
  unfold built; simpl. apply NoDup_set_member, NoDup_set_member. exact H.
Qed.

(** X3. The last resource added under an id is the one the built template
    holds under that id, unless the id is that of the stage or of the
    deployment, which [build] writes itself, or [__proto__], under which an
    assignment makes no member. *)
Theorem last_added_resource_wins :
  forall (api : string) (before after : list (string * value)) (name : string)
         (content : value),
    ~ In name (List.map fst after) ->
    name <> "ApiStage" -> name <> "ApiDeployment" -> name <> "__proto__" ->
    get_path ["Resources"; name]
      (template_value
         (built (addResources (before ++ (name, content) :: after) (newBuilder api))))
    = Some content.
Proof.
  intros api before after name content Hlast Hstage Hdeployment _.
  unfold template_value, built; simpl.
  rewrite !get_member_set_member_other by (intros H; symmetry in H; contradiction).
  rewrite get_member_addResources_last by exact Hlast. reflexivity.
Qed.

Lemma last_added_resource_wins_witness :
  ~ In "RouteA" (List.map fst [("RoleA", roleResource)])
  /\ get_path ["Resources"; "RouteA"]
       (template_value
          (built (addResources
                    ([("RouteA", Str "first")] ++ ("RouteA", Str "second")
                       :: [("RoleA", roleResource)])
                    (newBuilder "ApiGatewayshop"))))
     = Some (Str "second").
Proof.
  assert (H : ~ In "RouteA" (List.map fst [("RoleA", roleResource)])).
  { simpl. intros [H | []]. discriminate. }
  split; [exact H |].
  apply (last_added_resource_wins "ApiGatewayshop" [("RouteA", Str "first")]
           [("RoleA", roleResource)] "RouteA" (Str "second") H); discriminate.
Defined.

(** X4. The built template always holds the stage and the deployment that
    [build] writes, also when resources were added under their ids, and it
    declares the output ApiUrl. *)
Theorem build_writes_stage_deployment_and_output :
  forall (api : string) (added : list (string * value)),
    let t := template_value (built (addResources added (newBuilder api))) in
    get_path ["Resources"; "ApiStage"] t = Some (ApiStage api)
    /\ get_path ["Resources"; "ApiDeployment"] t
       = Some (ApiDeployment api (List.map fst added))
    /\ get_path ["Outputs"; "ApiUrl"] t = Some (ApiUrl api).
Proof.
  intros api added. unfold template_value, built; simpl.
  rewrite apiGatewayResourceName_addResources, resourceIds_addResources. simpl.
  rewrite get_member_set_member_same.
  rewrite get_member_set_member_other by discriminate.
  rewrite get_member_set_member_same.
  repeat split; reflexivity.
Qed.

(** ** The calls of deploy *)

Lemma for_of_Forall {W A S : Type} (b : Backend W) (body : A -> S -> Prog S)
  (P : Event -> Prop) :
  (forall x s w tr o w', run b (body x s) w = (tr, o, w') -> Forall P tr) ->
  forall (l : list A) (s : S) (w : W) tr o w',
    run b (for_of body l s) w = (tr, o, w') -> Forall P tr.
Proof.
  intros Hbody l. induction l as [| x tl IH]; intros s w tr o w' Hrun.
  - simpl in Hrun. inversion Hrun. constructor.
  - cbn [for_of] in Hrun. rewrite run_bind in Hrun.
    destruct (run b (body x s) w) as [[tr1 o1] w1] eqn:Hx.
    apply Hbody in Hx. destruct o1 as [s1 | e].
    + destruct (run b (for_of body tl s1) w1) as [[tr2 o2] w2] eqn:Htl.
      inversion Hrun; subst. apply Forall_app; split; [exact Hx | eapply IH; eassumption].
    + inversion Hrun; subst. exact Hx.
Qed.

Lemma prepareBucket_shape {W : Type} (b : Backend W)
  (credentials : option string) (bucketName region : string)
  (w w' : W) (tr : list Event) (o : outcome unit) :
  run b (prepareBucket credentials bucketName region) w = (tr, o, w') ->
  Forall (fun e => is_setup_call (ev_call e) = true) tr
  /\ (forall u, o = Fulfilled u ->
        credentials <> None
        /\ (tr = [Ev (headBucket bucketName) (Fulfilled tt)]
            \/ exists e,
                tr = [Ev (headBucket bucketName) (Rejected e);
                      Ev (CreateBucketCommand bucketName
                            (if String.eqb region "us-east-1" then None else Some region))
                        (Fulfilled tt);
                      Ev (PutBucketVersioningCommand bucketName "Enabled") (Fulfilled tt)])).
Proof.
  intros Hrun. unfold prepareBucket, bucketForProjectExists in Hrun. simpl in Hrun.
  answer b Hrun; destruct credentials as [key |]; simpl in Hrun;
    repeat (answer b Hrun); inversion Hrun; subst; simpl;
    (split; [repeat constructor | intros u Hu; try discriminate]);
    unit_replies; (split; [discriminate |]).
  - left; reflexivity.
  - right; eexists; reflexivity.
Qed.

Lemma deployItem_item_calls {W : Type} (b : Backend W)
  (pc : ProjectConfiguration) (bucketName api : string) (inputItem : GenezioCloudInput)
  (t : GenezioCloudFormationBuilder) (w w' : W) (tr : list Event)
  (o : outcome GenezioCloudFormationBuilder) :
  run b (deployItem pc bucketName api inputItem t) w = (tr, o, w') ->
  Forall (fun e => is_item_call (ev_call e) = true) tr.
Proof.
  intros Hrun. unfold deployItem, uploadZipToS3, getLatestObjectVersion in Hrun.
  simpl in Hrun.
  answer b Hrun; [| inversion Hrun; repeat constructor].
  answer b Hrun; [| inversion Hrun; repeat constructor].
  destruct (classOf pc inputItem) as [c |]; simpl in Hrun;
    [| inversion Hrun; repeat constructor].
  destruct (getFunctionRuntime (class_language c)) as [runtime | e];
    simpl in Hrun; [| inversion Hrun; repeat constructor].
  answer b Hrun; inversion Hrun; repeat constructor.
Qed.

Lemma updateStack_calls {W : Type} (b : Backend W) (template stackName : string)
  (w w' : W) (tr : list Event) (o : outcome unit) :
  run b (updateStack template stackName) w = (tr, o, w') ->
  forall c, In c (calls tr) ->
    c = DescribeStacksCommand stackName
    \/ exists state, In c (stateMachineRow state template stackName).
Proof.
  intros Hrun c Hin. unfold updateStack in Hrun.
  rewrite run_bind, run_checkIfStackExists in Hrun.
  destruct (b (DescribeStacksCommand stackName) w) as [reply w1]; simpl in Hrun.
  destruct (probeOf stackName reply) as [probe | e0].
  - destruct (run b (converge probe template stackName) w1) as [[tr2 o2] w2] eqn:Hconv.
    inversion Hrun; subst tr o w'; clear Hrun.
    destruct Hin as [Hc | Hin]; [left; symmetry; exact Hc |].
    right. exists (probedState probe).
    destruct (converge_follows_row b probe template stackName w1 tr2 o2 w2 Hconv)
      as [[later Hrow] _].
    rewrite Hrow. apply in_or_app; left; exact Hin.
  - inversion Hrun; subst tr o w'; clear Hrun.
    destruct Hin as [Hc | []]. left; symmetry; exact Hc.
Qed.

Lemma updateStack_stack_calls {W : Type} (b : Backend W) (template stackName : string)
  (w w' : W) (tr : list Event) (o : outcome unit) :
  run b (updateStack template stackName) w = (tr, o, w') ->
  Forall (fun e => is_stack_call (ev_call e) = true) tr.
Proof.
  intros Hrun. apply Forall_forall. intros e Hin.
  assert (Hc : In (ev_call e) (calls tr)) by (unfold calls; apply in_map; exact Hin).
  destruct (updateStack_calls b _ _ _ _ _ _ Hrun _ Hc) as [-> | [state Hrow]];
    [reflexivity |].
  destruct state; simpl in Hrow;
    repeat (destruct Hrow as [<- | Hrow]; [reflexivity |]); contradiction.
Qed.

Lemma for_of_Forall_In {W A S : Type} (b : Backend W) (body : A -> S -> Prog S)
  (P : Event -> Prop) (l : list A) :
  (forall x s w tr o w', In x l -> run b (body x s) w = (tr, o, w') -> Forall P tr) ->
  forall (s : S) (w : W) tr o w',
    run b (for_of body l s) w = (tr, o, w') -> Forall P tr.
Proof.
  induction l as [| x tl IH]; intros Hbody s w tr o w' Hrun.
  - simpl in Hrun. inversion Hrun. constructor.
  - cbn [for_of] in Hrun. rewrite run_bind in Hrun.
    destruct (run b (body x s) w) as [[tr1 o1] w1] eqn:Hx.
    apply Hbody in Hx; [| left; reflexivity].
    assert (Htl : forall x0 s0 w0 tr0 o0 w0',
               In x0 tl -> run b (body x0 s0) w0 = (tr0, o0, w0') -> Forall P tr0).
    { intros x0 s0 w0 tr0 o0 w0' Hin. apply Hbody. right; exact Hin. }
    destruct o1 as [s1 | e].
    + destruct (run b (for_of body tl s1) w1) as [[tr2 o2] w2] eqn:Hrest.
      inversion Hrun; subst. apply Forall_app; split; [exact Hx |].
      eapply IH; eassumption.
    + inversion Hrun; subst. exact Hx.
Qed.

(** The run of [deploy], phase after phase. *)
Lemma deploy_inv {W : Type} (b : Backend W) (credentials : option string)
  (input : list GenezioCloudInput) (pc : ProjectConfiguration)
  (w w' : W) (tr : list Event) (o : outcome GenezioCloudOutput) :
  run b (deploy credentials input pc) w = (tr, o, w') ->
  (project_region pc = "" /\ tr = [] /\ o = Rejected (Error "Region is missing"))
  \/
  project_region pc <> ""
  /\ exists tr1 o1 w1,
    run b (prepareBucket credentials (bucketNameOf pc) (project_region pc)) w = (tr1, o1, w1)
    /\ match o1 with
       | Rejected e => tr = tr1 /\ o = Rejected e
       | Fulfilled _ =>
           exists tr2 o2 w2,
             run b (synthesize pc (bucketNameOf pc) (apiGatewayResourceNameOf pc) input) w1
             = (tr2, o2, w2)
             /\ match o2 with
                | Rejected e => tr = (tr1 ++ tr2)%list /\ o = Rejected e
                | Fulfilled t =>
                    exists tr3 o3 w3,
                      run b (updateStack (build t) (stackNameOf pc)) w2 = (tr3, o3, w3)
                      /\ match o3 with
                         | Rejected e => tr = (tr1 ++ tr2 ++ tr3)%list /\ o = Rejected e
                         | Fulfilled _ =>
                             exists r,
                               tr = (tr1 ++ tr2 ++ tr3
                                     ++ [Ev (DescribeStacksCommand (stackNameOf pc)) r])%list
                               /\ o = match r with
                                      | Fulfilled stackDetails => resolve stackDetails input
                                      | Rejected e => Rejected e
                                      end
                         end
                end
       end.
Proof.
  intros Hrun. rewrite run_deploy in Hrun.
  destruct (String.eqb (project_region pc) "") eqn:Hregion.
  { apply String.eqb_eq in Hregion. left. inversion Hrun. repeat split. exact Hregion. }
  apply String.eqb_neq in Hregion. right. split; [exact Hregion |].
  destruct (run b (prepareBucket _ _ _) w) as [[tr1 o1] w1].
  exists tr1, o1, w1. split; [reflexivity |].
  destruct o1 as [u1 | e1]; [| inversion Hrun; split; reflexivity].
  destruct (run b (synthesize _ _ _ _) w1) as [[tr2 o2] w2].
  exists tr2, o2, w2. split; [reflexivity |].
  destruct o2 as [t | e2]; [| inversion Hrun; split; reflexivity].
  destruct (run b (updateStack _ _) w2) as [[tr3 o3] w3].
  exists tr3, o3, w3. split; [reflexivity |].
  destruct o3 as [u3 | e3]; [| inversion Hrun; split; reflexivity].
  destruct (b (DescribeStacksCommand (stackNameOf pc)) w3) as [r w4].
  exists r. inversion Hrun; split; reflexivity.
Qed.

Lemma synthesize_item_calls {W : Type} (b : Backend W) (pc : ProjectConfiguration)
  (bucketName api : string) (input : list GenezioCloudInput) (w w' : W)
  (tr : list Event) (o : outcome GenezioCloudFormationBuilder) :
  run b (synthesize pc bucketName api input) w = (tr, o, w') ->
  Forall (fun e => is_item_call (ev_call e) = true) tr.
Proof.
  unfold synthesize. apply for_of_Forall.
  intros x s w0 tr0 o0 w0'. apply deployItem_item_calls.
Qed.

(** X5. Deploy never interleaves its phases: every run is made of calls that
    prepare the bucket, then of calls that read, upload and look up the
    archives of the classes, then of CloudFormation calls, in this order. *)
Theorem deploy_runs_in_three_phases :
  forall (W : Type) (b : Backend W) (w : W) (credentials : option string)
         (input : list GenezioCloudInput) (pc : ProjectConfiguration)
         (tr : list Event) (o : outcome GenezioCloudOutput) (w' : W),
    run b (deploy credentials input pc) w = (tr, o, w') ->
    exists setup items stack,
      tr = (setup ++ items ++ stack)%list
      /\ Forall (fun e => is_setup_call (ev_call e) = true) setup
      /\ Forall (fun e => is_item_call (ev_call e) = true) items
      /\ Forall (fun e => is_stack_call (ev_call e) = true) stack.
Proof.
  intros W b w credentials input pc tr o w' Hrun.
  destruct (deploy_inv b _ _ _ _ _ _ _ Hrun)
    as [(_ & -> & ->) | (_ & tr1 & o1 & w1 & Hprep & H1)];
    [exists [], [], []; repeat split; constructor |].
  destruct (prepareBucket_shape b _ _ _ _ _ _ _ Hprep) as [Hsetup _].
  destruct o1 as [u1 | e1].
  2:{ destruct H1 as [-> _]. exists tr1, [], []. rewrite !app_nil_r.
      repeat split; try constructor. exact Hsetup. }
  destruct H1 as (tr2 & o2 & w2 & Hsyn & H2).
  pose proof (synthesize_item_calls b _ _ _ _ _ _ _ _ Hsyn) as Hitems.
  destruct o2 as [t | e2].
  2:{ destruct H2 as [-> _]. exists tr1, tr2, []. rewrite !app_nil_r.
      repeat split; try constructor; assumption. }
  destruct H2 as (tr3 & o3 & w3 & Hupd & H3).
  pose proof (updateStack_stack_calls b _ _ _ _ _ _ Hupd) as Hstack.
  destruct o3 as [u3 | e3].
  2:{ destruct H3 as [-> _]. exists tr1, tr2, tr3. repeat split; assumption. }
  destruct H3 as (r & -> & _).
  exists tr1, tr2, (tr3 ++ [Ev (DescribeStacksCommand (stackNameOf pc)) r])%list.
  repeat split; try assumption.
  apply Forall_app; split; [exact Hstack | repeat constructor].
Qed.

Lemma deploy_runs_in_three_phases_witness :
  let '(tr, _, _) :=
    run (cloud testSettings) (deploy (Some "AKIA") (shopInput "jsonrpc") (shop "jsonrpc"))
      (mkCloud false None) in
  exists setup items stack,
    tr = (setup ++ items ++ stack)%list
    /\ Forall (fun e => is_setup_call (ev_call e) = true) setup
    /\ Forall (fun e => is_item_call (ev_call e) = true) items
    /\ Forall (fun e => is_stack_call (ev_call e) = true) stack.
Proof.
  destruct (run (cloud testSettings)
              (deploy (Some "AKIA") (shopInput "jsonrpc") (shop "jsonrpc"))
              (mkCloud false None)) as [[tr o] w'] eqn:Hrun.
  exact (deploy_runs_in_three_phases Cloud (cloud testSettings) (mkCloud false None)
           (Some "AKIA") (shopInput "jsonrpc") (shop "jsonrpc") tr o w' Hrun).
Defined.

Lemma prepareBucket_own_calls {W : Type} (b : Backend W) (credentials : option string)
  (pc : ProjectConfiguration) (input : list GenezioCloudInput)
  (w w' : W) (tr : list Event) (o : outcome unit) :
  run b (prepareBucket credentials (bucketNameOf pc) (project_region pc)) w = (tr, o, w') ->
  Forall (fun e => own_call pc input (ev_call e)) tr.
Proof.
  intros Hrun. unfold prepareBucket, bucketForProjectExists in Hrun. simpl in Hrun.
  answer b Hrun; destruct credentials as [key |]; simpl in Hrun;
    repeat (answer b Hrun); inversion Hrun; subst;
    repeat constructor.
Qed.

Lemma deployItem_own_calls {W : Type} (b : Backend W)
  (pc : ProjectConfiguration) (api : string) (input : list GenezioCloudInput)
  (inputItem : GenezioCloudInput)
  (t : GenezioCloudFormationBuilder) (w w' : W) (tr : list Event)
  (o : outcome GenezioCloudFormationBuilder) :
  In inputItem input ->
  run b (deployItem pc (bucketNameOf pc) api inputItem t) w = (tr, o, w') ->
  Forall (fun e => own_call pc input (ev_call e)) tr.
Proof.
  intros Hin Hrun.
  assert (Hpath : In (input_archivePath inputItem) (List.map input_archivePath input))
    by (apply in_map; exact Hin).
  assert (Hkey : In (bucketKeyOf pc inputItem) (List.map (bucketKeyOf pc) input))
    by (apply in_map; exact Hin).
  unfold deployItem, uploadZipToS3, getLatestObjectVersion in Hrun.
  simpl in Hrun.
  answer b Hrun;
    [| inversion Hrun; repeat constructor; assumption].
  answer b Hrun;
    [| inversion Hrun; repeat constructor; assumption].
  destruct (classOf pc inputItem) as [c |]; simpl in Hrun;
    [| inversion Hrun; repeat constructor; assumption].
  destruct (getFunctionRuntime (class_language c)) as [runtime | e];
    simpl in Hrun; [| inversion Hrun; repeat constructor; assumption].
  answer b Hrun; inversion Hrun; repeat constructor; assumption.
Qed.

Lemma row_own_calls (pc : ProjectConfiguration) (input : list GenezioCloudInput)
  (state : RemoteStackState) (template : string) (c : Call) :
  In c (stateMachineRow state template (stackNameOf pc)) -> own_call pc input c.
Proof.
  destruct state; simpl; intros H;
    repeat (destruct H as [<- | H]; [simpl; split; reflexivity || reflexivity |]);
    contradiction.
Qed.

(** X6. Deploy stays within its project: in every run, every S3 call names
    the bucket of the project, a new bucket is created in the region of the
    project (with no location constraint in us-east-1), objects are put and
    looked up only under the keys of the classes of the input, files are read
    only from their archive paths, every CloudFormation call names the stack
    of the project, stacks are created and updated with CAPABILITY_IAM, and
    every wait is bounded by 360 seconds. *)
Theorem deploy_stays_within_its_project :
  forall (W : Type) (b : Backend W) (w : W) (credentials : option string)
         (input : list GenezioCloudInput) (pc : ProjectConfiguration)
         (tr : list Event) (o : outcome GenezioCloudOutput) (w' : W),
    run b (deploy credentials input pc) w = (tr, o, w') ->
    Forall (own_call pc input) (calls tr).
Proof.
  intros W b w credentials input pc tr o w' Hrun.
  unfold calls. rewrite Forall_map.
  destruct (deploy_inv b _ _ _ _ _ _ _ Hrun)
    as [(_ & -> & ->) | (_ & tr1 & o1 & w1 & Hprep & H1)];
    [constructor |].
  pose proof (prepareBucket_own_calls b _ pc input _ _ _ _ Hprep) as Hown1.
  destruct o1 as [u1 | e1]; [| destruct H1 as [-> _]; exact Hown1].
  destruct H1 as (tr2 & o2 & w2 & Hsyn & H2).
  assert (Hown2 : Forall (fun e => own_call pc input (ev_call e)) tr2).
  { unfold synthesize in Hsyn. revert Hsyn. apply for_of_Forall_In.
    intros x s w0 tr0 o0 w0' Hin. apply deployItem_own_calls. exact Hin. }
  destruct o2 as [t | e2];
    [| destruct H2 as [-> _]; apply Forall_app; split; assumption].
  destruct H2 as (tr3 & o3 & w3 & Hupd & H3).
  assert (Hown3 : Forall (fun e => own_call pc input (ev_call e)) tr3).
  { apply Forall_forall. intros e Hin.
    assert (Hc : In (ev_call e) (calls tr3)) by (unfold calls; apply in_map; exact Hin).
    destruct (updateStack_calls b _ _ _ _ _ _ Hupd _ Hc) as [-> | [state Hrow]].
    - reflexivity.
    - eapply row_own_calls; eassumption. }
  destruct o3 as [u3 | e3].
  - destruct H3 as (r & -> & _).
    repeat (apply Forall_app; split; try assumption). repeat constructor.
  - destruct H3 as [-> _]. repeat (apply Forall_app; split; try assumption).
Qed.

Lemma deploy_stays_within_its_project_witness :
  let '(tr, _, _) :=
    run (cloud testSettings) (deploy (Some "AKIA") (shopInput "jsonrpc") (shop "jsonrpc"))
      (mkCloud false None) in
  Forall (own_call (shop "jsonrpc") (shopInput "jsonrpc")) (calls tr).
Proof.
  destruct (run (cloud testSettings)
              (deploy (Some "AKIA") (shopInput "jsonrpc") (shop "jsonrpc"))
              (mkCloud false None)) as [[tr o] w'] eqn:Hrun.
  exact (deploy_stays_within_its_project Cloud (cloud testSettings) (mkCloud false None)
           (Some "AKIA") (shopInput "jsonrpc") (shop "jsonrpc") tr o w' Hrun).
Defined.

(** X7. The only template deploy ever sends to CloudFormation, in a stack
    creation or update, is the text of the template built from the resources
    of all the classes of the input, after every class was uploaded and its
    version read back. *)
Theorem deploy_sends_the_synthesized_template :
  forall (W : Type) (b : Backend W) (w : W) (credentials : option string)
         (input : list GenezioCloudInput) (pc : ProjectConfiguration)
         (tr : list Event) (o : outcome GenezioCloudOutput) (w' : W),
    run b (deploy credentials input pc) w = (tr, o, w') ->
    forall c sent,
      In c (calls tr) -> templateOf c = Some sent ->
      exists exchanged resources,
        Synthesized pc (bucketNameOf pc) (apiGatewayResourceNameOf pc) input
          exchanged resources
        /\ (exists before after, tr = (before ++ exchanged ++ after)%list)
        /\ sent = build (addResources resources
                           (newBuilder (apiGatewayResourceNameOf pc))).
Proof.
  intros W b w credentials input pc tr o w' Hrun c sent Hin Hsent.
  destruct (deploy_inv b _ _ _ _ _ _ _ Hrun)
    as [(_ & -> & ->) | (_ & tr1 & o1 & w1 & Hprep & H1)];
    [contradiction |].
  destruct (prepareBucket_shape b _ _ _ _ _ _ _ Hprep) as [Hsetup _].
  assert (Hno1 : forall c0, In c0 (calls tr1) -> templateOf c0 = None).
  { intros c0 H0. unfold calls in H0. apply in_map_iff in H0.
    destruct H0 as (e & <- & He). rewrite Forall_forall in Hsetup.
    specialize (Hsetup e He). destruct (ev_call e); simpl in *; congruence. }
  destruct o1 as [u1 | e1].
  2:{ destruct H1 as [-> _]. rewrite (Hno1 c Hin) in Hsent. discriminate. }
  destruct H1 as (tr2 & o2 & w2 & Hsyn & H2).
  pose proof (synthesize_item_calls b _ _ _ _ _ _ _ _ Hsyn) as Hitems.
  assert (Hno2 : forall c0, In c0 (calls tr2) -> templateOf c0 = None).
  { intros c0 H0. unfold calls in H0. apply in_map_iff in H0.
    destruct H0 as (e & <- & He). rewrite Forall_forall in Hitems.
    specialize (Hitems e He). destruct (ev_call e); simpl in *; congruence. }
  destruct o2 as [t | e2].
  2:{ destruct H2 as [-> _]. unfold calls in Hin. rewrite map_app in Hin.
      apply in_app_or in Hin. destruct Hin as [Hin | Hin];
        [rewrite (Hno1 c Hin) in Hsent | rewrite (Hno2 c Hin) in Hsent]; discriminate. }
  destruct H2 as (tr3 & o3 & w3 & Hupd & H3).
  unfold synthesize in Hsyn.
  destruct (for_of_deployItem_fulfilled b _ _ _ _ _ _ _ _ _ Hsyn) as (rs & Hsynth & ->).
  assert (Hsent3 : forall c0, In c0 (calls tr3) -> templateOf c0 = Some sent ->
                     sent = build (addResources rs (newBuilder (apiGatewayResourceNameOf pc)))).
  { intros c0 H0 Ht.
    destruct (updateStack_calls b _ _ _ _ _ _ Hupd _ H0) as [-> | [state Hrow]];
      [discriminate |].
    destruct state; simpl in Hrow;
      repeat (destruct Hrow as [<- | Hrow]; [simpl in Ht; congruence |]); contradiction. }
  assert (Hcases : In c (calls tr1) \/ In c (calls tr2) \/ In c (calls tr3)
                   \/ c = DescribeStacksCommand (stackNameOf pc)).
  { destruct o3 as [u3 | e3].
    - destruct H3 as (r & -> & _). unfold calls in *. rewrite !map_app in Hin.
      apply in_app_or in Hin. destruct Hin as [Hin | Hin]; [left; exact Hin |].
      apply in_app_or in Hin. destruct Hin as [Hin | Hin]; [right; left; exact Hin |].
      apply in_app_or in Hin. destruct Hin as [Hin | [Hin | []]];
        [right; right; left; exact Hin | right; right; right; symmetry; exact Hin].
    - destruct H3 as [-> _]. unfold calls in *. rewrite !map_app in Hin.
      apply in_app_or in Hin. destruct Hin as [Hin | Hin]; [left; exact Hin |].
      apply in_app_or in Hin. destruct Hin as [Hin | Hin]; [right; left; exact Hin |].
      right; right; left; exact Hin. }
  destruct Hcases as [H | [H | [H | ->]]].
  - rewrite (Hno1 c H) in Hsent. discriminate.
  - rewrite (Hno2 c H) in Hsent. discriminate.
  - exists tr2, rs. split; [exact Hsynth |]. split; [| exact (Hsent3 c H Hsent)].
    destruct o3 as [u3 | e3].
    + destruct H3 as (r & -> & _). eexists tr1, _. reflexivity.
    + destruct H3 as [-> _]. eexists tr1, _. reflexivity.
  - discriminate.
Qed.

Lemma deploy_sends_the_synthesized_template_witness :
  let sent :=
    build (addResources
             (itemResources (shop "jsonrpc") (bucketNameOf (shop "jsonrpc"))
                (apiGatewayResourceNameOf (shop "jsonrpc"))
                (mkInput "Orders" "/tmp/genezio-orders/genezioDeploy.zip" "orders.ts"
                   (ordersMethods "jsonrpc"))
                "nodejs14.x" (Some "v-stored"))
             (newBuilder (apiGatewayResourceNameOf (shop "jsonrpc")))) in
  let '(tr, _, _) :=
    run (cloud testSettings) (deploy (Some "AKIA") (shopInput "jsonrpc") (shop "jsonrpc"))
      (mkCloud true (Some "UPDATE_COMPLETE")) in
  In (UpdateStackCommand "genezio-shop" sent ["CAPABILITY_IAM"]) (calls tr)
  /\ exists exchanged resources,
      Synthesized (shop "jsonrpc") (bucketNameOf (shop "jsonrpc"))
        (apiGatewayResourceNameOf (shop "jsonrpc")) (shopInput "jsonrpc")
        exchanged resources
      /\ (exists before after, tr = (before ++ exchanged ++ after)%list)
      /\ sent = build (addResources resources
                         (newBuilder (apiGatewayResourceNameOf (shop "jsonrpc")))).
Proof.
  intros sent.
  destruct (run (cloud testSettings)
              (deploy (Some "AKIA") (shopInput "jsonrpc") (shop "jsonrpc"))
              (mkCloud true (Some "UPDATE_COMPLETE"))) as [[tr o] w'] eqn:Hrun.
  pose proof (deploy_sends_the_synthesized_template Cloud (cloud testSettings)
                (mkCloud true (Some "UPDATE_COMPLETE")) (Some "AKIA")
                (shopInput "jsonrpc") (shop "jsonrpc") tr o w' Hrun
                (UpdateStackCommand "genezio-shop" sent ["CAPABILITY_IAM"]) sent) as Hsent.
  vm_compute in Hrun. inversion Hrun; subst tr o w'; clear Hrun.
  assert (Hin : In (UpdateStackCommand "genezio-shop" sent ["CAPABILITY_IAM"])
                  (calls
                     ltac:(match type of Hsent with
                           | In _ (calls ?t) -> _ => exact t
                           end))).
  { simpl. do 5 right. left. vm_compute. reflexivity. }
  split; [exact Hin | exact (Hsent Hin eq_refl)].
Defined.

(** ** The bucket *)

(** X8. In every run of deploy that puts an object, the credentials were
    there and the run began in one of two ways: the bucket probe succeeded; or
    it failed, and the bucket was then created and its versioning enabled,
    both with success.  No bucket is probed, created or configured after
    that. *)
Theorem bucket_is_versioned_before_any_upload :
  forall (W : Type) (b : Backend W) (w : W) (credentials : option string)
         (input : list GenezioCloudInput) (pc : ProjectConfiguration)
         (tr : list Event) (o : outcome GenezioCloudOutput) (w' : W)
         (content bucket key : string),
    run b (deploy credentials input pc) w = (tr, o, w') ->
    In (PutObjectCommand content bucket key) (calls tr) ->
    credentials <> None
    /\ exists rest,
        (tr = (Ev (headBucket (bucketNameOf pc)) (Fulfilled tt) :: rest)%list
         \/ exists e,
             tr = (Ev (headBucket (bucketNameOf pc)) (Rejected e)
                   :: Ev (CreateBucketCommand (bucketNameOf pc)
                            (if String.eqb (project_region pc) "us-east-1"
                             then None else Some (project_region pc)))
                        (Fulfilled tt)
                   :: Ev (PutBucketVersioningCommand (bucketNameOf pc) "Enabled")
                        (Fulfilled tt)
                   :: rest)%list)
        /\ Forall (fun e => is_setup_call (ev_call e) = false) rest.
Proof.
  intros W b w credentials input pc tr o w' content bucket key Hrun Hput.
  destruct (deploy_inv b _ _ _ _ _ _ _ Hrun)
    as [(_ & -> & ->) | (_ & tr1 & o1 & w1 & Hprep & H1)];
    [contradiction |].
  destruct (prepareBucket_shape b _ _ _ _ _ _ _ Hprep) as [Hsetup Hshape].
  destruct o1 as [u1 | e1].
  2:{ exfalso. destruct H1 as [-> _]. unfold calls in Hput. apply in_map_iff in Hput.
      destruct Hput as (e & Hcall & He). rewrite Forall_forall in Hsetup.
      specialize (Hsetup e He). rewrite Hcall in Hsetup. discriminate. }
  destruct (Hshape u1 eq_refl) as [Hcred Htr1]. split; [exact Hcred |].
  assert (Hrest : exists rest, tr = (tr1 ++ rest)%list
                               /\ Forall (fun e => is_setup_call (ev_call e) = false) rest).
  { destruct H1 as (tr2 & o2 & w2 & Hsyn & H2).
    assert (Hitems : Forall (fun e => is_setup_call (ev_call e) = false) tr2).
    { eapply Forall_impl; [| exact (synthesize_item_calls b _ _ _ _ _ _ _ _ Hsyn)].
      intros [c0 r0] He. destruct c0; simpl in *; congruence. }
    destruct o2 as [t | e2]; [| destruct H2 as [-> _]; exists tr2; split; [reflexivity | exact Hitems]].
    destruct H2 as (tr3 & o3 & w3 & Hupd & H3).
    assert (Hstack : Forall (fun e => is_setup_call (ev_call e) = false) tr3).
    { eapply Forall_impl; [| exact (updateStack_stack_calls b _ _ _ _ _ _ Hupd)].
      intros [c0 r0] He. destruct c0; simpl in *; congruence. }
    destruct o3 as [u3 | e3].
    - destruct H3 as (r & -> & _). eexists; split; [reflexivity |].
      repeat (apply Forall_app; split; try assumption). repeat constructor.
    - destruct H3 as [-> _]. eexists; split; [reflexivity |].
      apply Forall_app; split; assumption. }
  destruct Hrest as (rest & -> & Hclean). exists rest. split; [| exact Hclean].
  destruct Htr1 as [-> | [e ->]]; [left; reflexivity | right; exists e; reflexivity].
Qed.

Lemma bucket_is_versioned_before_any_upload_witness :
  let '(tr, _, _) :=
    run (cloud testSettings) (deploy (Some "AKIA") (shopInput "jsonrpc") (shop "jsonrpc"))
      (mkCloud false None) in
  In (PutObjectCommand "PK" "bucket-us-east-1-shop" "genezio-shop/lambda-Orders.zip")
    (calls tr)
  /\ exists rest,
      (tr = (Ev (headBucket "bucket-us-east-1-shop") (Fulfilled tt) :: rest)%list
       \/ exists e,
           tr = (Ev (headBucket "bucket-us-east-1-shop") (Rejected e)
                 :: Ev (CreateBucketCommand "bucket-us-east-1-shop" None) (Fulfilled tt)
                 :: Ev (PutBucketVersioningCommand "bucket-us-east-1-shop" "Enabled")
                      (Fulfilled tt)
                 :: rest)%list)
      /\ Forall (fun e => is_setup_call (ev_call e) = false) rest.
Proof.
  destruct (run (cloud testSettings)
              (deploy (Some "AKIA") (shopInput "jsonrpc") (shop "jsonrpc"))
              (mkCloud false None)) as [[tr o] w'] eqn:Hrun.
  pose proof (bucket_is_versioned_before_any_upload Cloud (cloud testSettings)
                (mkCloud false None) (Some "AKIA") (shopInput "jsonrpc") (shop "jsonrpc")
                tr o w' "PK" "bucket-us-east-1-shop" "genezio-shop/lambda-Orders.zip" Hrun)
    as Hversioned.
  vm_compute in Hrun. inversion Hrun; subst tr o w'; clear Hrun.
  assert (Hput : In (PutObjectCommand "PK" "bucket-us-east-1-shop"
                       "genezio-shop/lambda-Orders.zip")
                   (calls
                      ltac:(match type of Hversioned with
                            | In _ (calls ?t) -> _ => exact t
                            end))).
  { simpl. right; right; right; right. left. reflexivity. }
  split; [exact Hput |]. exact (proj2 (Hversioned Hput)).
Defined.

(** X9. Without credentials deploy makes at most one call and creates,
    uploads and deploys nothing.  When the region of the project is empty the
    construction of the clients throws "Region is missing" before any call.
    Otherwise the bucket probe is the one call, made before the credentials
    are looked at, and deploy throws "AWS credentials not found". *)
Theorem deploy_without_credentials_only_probes_the_bucket :
  forall (W : Type) (b : Backend W) (w : W)
         (input : list GenezioCloudInput) (pc : ProjectConfiguration)
         (tr : list Event) (o : outcome GenezioCloudOutput) (w' : W),
    run b (deploy None input pc) w = (tr, o, w') ->
    (project_region pc = ""
     /\ tr = [] /\ o = Rejected (Error "Region is missing"))
    \/ (project_region pc <> ""
        /\ (exists reply, tr = [Ev (headBucket (bucketNameOf pc)) reply])
        /\ o = Rejected (Error "AWS credentials not found")).
Proof.
  intros W b w input pc tr o w' Hrun.
  rewrite run_deploy in Hrun.
  destruct (String.eqb (project_region pc) "") eqn:Hregion.
  { apply String.eqb_eq in Hregion. left. inversion Hrun. repeat split. exact Hregion. }
  apply String.eqb_neq in Hregion. right. split; [exact Hregion |].
  unfold prepareBucket, bucketForProjectExists in Hrun. simpl in Hrun.
  destruct (b (headBucket (bucketNameOf pc)) w) as [[u | e] w1]; simpl in Hrun;
    inversion Hrun; subst; (split; [eexists; reflexivity | reflexivity]).
Qed.

Lemma deploy_without_credentials_only_probes_the_bucket_witness :
  run (cloud testSettings) (deploy None (shopInput "jsonrpc") (shop "jsonrpc"))
    (mkCloud true None)
  = ([Ev (headBucket "bucket-us-east-1-shop") (Fulfilled tt)],
     Rejected (Error "AWS credentials not found"), mkCloud true None)
  /\ run (cloud testSettings)
       (deploy None (shopInput "jsonrpc") (mkProject "shop" "" (project_classes (shop "jsonrpc"))))
       (mkCloud true None)
     = ([], Rejected (Error "Region is missing"), mkCloud true None)
  /\ ((project_region (shop "jsonrpc") = ""
       /\ [Ev (headBucket "bucket-us-east-1-shop") (Fulfilled tt)] = []
       /\ @Rejected GenezioCloudOutput (Error "AWS credentials not found")
          = Rejected (Error "Region is missing"))
      \/ (project_region (shop "jsonrpc") <> ""
          /\ (exists reply,
                 [Ev (headBucket "bucket-us-east-1-shop") (Fulfilled tt)]
                 = [Ev (headBucket (bucketNameOf (shop "jsonrpc"))) reply])
          /\ @Rejected GenezioCloudOutput (Error "AWS credentials not found")
             = Rejected (Error "AWS credentials not found"))).
Proof.
  split; [reflexivity |]. split; [reflexivity |].
  apply (deploy_without_credentials_only_probes_the_bucket Cloud (cloud testSettings)
           (mkCloud true None) (shopInput "jsonrpc") (shop "jsonrpc")
           [Ev (headBucket "bucket-us-east-1-shop") (Fulfilled tt)]
           _ (mkCloud true None)).
  reflexivity.
Defined.

(** ** Classes that cannot be deployed *)

Lemma Synthesized_resolved (pc : ProjectConfiguration) (bucketName api : string)
  (input : list GenezioCloudInput) (tr : list Event) (rs : list (string * value)) :
  Synthesized pc bucketName api input tr rs ->
  Forall (fun inputItem =>
            exists c runtime,
              classOf pc inputItem = Some c
              /\ getFunctionRuntime (class_language c) = Fulfilled runtime) input.
Proof.
  induction 1; constructor; [| assumption].
  eexists _, _; split; eassumption.
Qed.

(** X10. Deploy calls CloudFormation only when every class of the input was
    found in the project by its file path and has a language with a runtime:
    otherwise the stack is not even described. *)
Theorem stack_is_touched_only_when_every_class_resolves :
  forall (W : Type) (b : Backend W) (w : W) (credentials : option string)
         (input : list GenezioCloudInput) (pc : ProjectConfiguration)
         (tr : list Event) (o : outcome GenezioCloudOutput) (w' : W),
    run b (deploy credentials input pc) w = (tr, o, w') ->
    Exists (fun e => is_stack_call (ev_call e) = true) tr ->
    Forall (fun inputItem =>
              exists c runtime,
                classOf pc inputItem = Some c
                /\ getFunctionRuntime (class_language c) = Fulfilled runtime) input.
Proof.
  intros W b w credentials input pc tr o w' Hrun Hstack.
  destruct (deploy_inv b _ _ _ _ _ _ _ Hrun)
    as [(_ & -> & ->) | (_ & tr1 & o1 & w1 & Hprep & H1)];
    [inversion Hstack |].
  destruct (prepareBucket_no_stack_call b _ _ _ _ _ _ _ Hprep) as (Hns1 & _ & _).
  assert (Hclash : forall l, no_stack_call l ->
                     Exists (fun e => is_stack_call (ev_call e) = true) l -> False).
  { intros l Hns Hex. apply Exists_exists in Hex. destruct Hex as (e & Hin & He).
    unfold no_stack_call in Hns. rewrite Forall_forall in Hns.
    rewrite (Hns e Hin) in He. discriminate. }
  destruct o1 as [u1 | e1]; [| destruct H1 as [-> _]; exfalso; eauto].
  destruct H1 as (tr2 & o2 & w2 & Hsyn & H2).
  unfold synthesize in Hsyn.
  pose proof (for_of_deployItem_no_stack_call b _ _ _ _ _ _ _ _ _ Hsyn) as Hns2.
  destruct o2 as [t | e2].
  - destruct (for_of_deployItem_fulfilled b _ _ _ _ _ _ _ _ _ Hsyn) as (rs & Hsynth & _).
    eapply Synthesized_resolved; eassumption.
  - destruct H2 as [-> _]. exfalso. eapply Hclash; [| exact Hstack].
    apply no_stack_call_app; assumption.
Qed.

Lemma stack_is_touched_only_when_every_class_resolves_witness :
  let '(tr, _, _) :=
    run (cloud testSettings) (deploy (Some "AKIA") (shopInput "jsonrpc") (shop "jsonrpc"))
      (mkCloud true None) in
  Exists (fun e => is_stack_call (ev_call e) = true) tr
  /\ Forall (fun inputItem =>
               exists c runtime,
                 classOf (shop "jsonrpc") inputItem = Some c
                 /\ getFunctionRuntime (class_language c) = Fulfilled runtime)
       (shopInput "jsonrpc").
Proof.
  destruct (run (cloud testSettings)
              (deploy (Some "AKIA") (shopInput "jsonrpc") (shop "jsonrpc"))
              (mkCloud true None)) as [[tr o] w'] eqn:Hrun.
  pose proof (stack_is_touched_only_when_every_class_resolves Cloud (cloud testSettings)
                (mkCloud true None) (Some "AKIA") (shopInput "jsonrpc") (shop "jsonrpc")
                tr o w' Hrun) as Hgate.
  vm_compute in Hrun. inversion Hrun; subst tr o w'; clear Hrun.
  assert (Hex : Exists (fun e => is_stack_call (ev_call e) = true)
                  ltac:(match type of Hgate with
                        | Exists _ ?t -> _ => exact t
                        end)).
  { do 4 apply Exists_cons_tl. apply Exists_cons_hd. reflexivity. }
  split; [exact Hex | exact (Hgate Hex)].
Defined.

(** X11. A class whose file path matches no class of the project is never
    deployed, and its version is never looked up.  When its archive was read
    and put with success, what deploy throws is the TypeError of reading the
    language of an undefined configuration. *)
Theorem class_without_configuration_fails_after_upload :
  forall (W : Type) (b : Backend W) (w : W) (pc : ProjectConfiguration)
         (bucketName api : string) (inputItem : GenezioCloudInput)
         (t : GenezioCloudFormationBuilder) (tr : list Event)
         (o : outcome GenezioCloudFormationBuilder) (w' : W),
    classOf pc inputItem = None ->
    run b (deployItem pc bucketName api inputItem t) w = (tr, o, w') ->
    (exists e, o = Rejected e)
    /\ List.filter is_version_query (calls tr) = []
    /\ (forallb went_well tr = true ->
        o = Rejected (TypeError "Cannot read properties of undefined (reading 'language')")
        /\ exists content upload,
            tr = [Ev (readFileSync (input_archivePath inputItem)) (Fulfilled content);
                  Ev (PutObjectCommand content bucketName (bucketKeyOf pc inputItem))
                    (Fulfilled upload)]).
Proof.
  intros W b w pc bucketName api inputItem t tr o w' Hclass Hrun.
  unfold deployItem, uploadZipToS3, getLatestObjectVersion in Hrun.
  simpl in Hrun. rewrite Hclass in Hrun.
  answer b Hrun.
  - answer b Hrun; inversion Hrun; subst tr o w'; clear Hrun; simpl.
    + split; [eexists; reflexivity | split; [reflexivity |]]. intros _.
      split; [reflexivity | exists r, r0; reflexivity].
    + split; [eexists; reflexivity | split; [reflexivity |]]. intros H; discriminate.
  - inversion Hrun; subst tr o w'; clear Hrun; simpl.
    split; [eexists; reflexivity | split; [reflexivity |]]. intros H; discriminate.
Qed.

Lemma class_without_configuration_fails_after_upload_witness :
  classOf (shop "jsonrpc") (mkInput "Users" "/tmp/users.zip" "users.ts" []) = None
  /\ run (cloud testSettings)
       (deployItem (shop "jsonrpc") "bucket-us-east-1-shop" "ApiGatewayshop"
          (mkInput "Users" "/tmp/users.zip" "users.ts" []) (newBuilder "ApiGatewayshop"))
       (mkCloud true None)
     = ([Ev (readFileSync "/tmp/users.zip") (Fulfilled "PK");
         Ev (PutObjectCommand "PK" "bucket-us-east-1-shop" "genezio-shop/lambda-Users.zip")
           (Fulfilled (mkPutObjectOutput None (Some "v-upload")))],
        Rejected (TypeError "Cannot read properties of undefined (reading 'language')"),
        mkCloud true None)
  /\ exists e,
      Rejected (TypeError "Cannot read properties of undefined (reading 'language')")
      = @Rejected GenezioCloudFormationBuilder e.
Proof.
  split; [reflexivity | split; [reflexivity |]].
  apply (class_without_configuration_fails_after_upload Cloud (cloud testSettings)
           (mkCloud true None) (shop "jsonrpc") "bucket-us-east-1-shop" "ApiGatewayshop"
           (mkInput "Users" "/tmp/users.zip" "users.ts" []) (newBuilder "ApiGatewayshop")
           [Ev (readFileSync "/tmp/users.zip") (Fulfilled "PK");
            Ev (PutObjectCommand "PK" "bucket-us-east-1-shop" "genezio-shop/lambda-Users.zip")
              (Fulfilled (mkPutObjectOutput None (Some "v-upload")))]
           (Rejected (TypeError "Cannot read properties of undefined (reading 'language')"))
           (mkCloud true None)); reflexivity.
Defined.

(** ** The result *)

Lemma resolve_fulfilled_classes (stackDetails : DescribeStacksCommandOutput)
  (input : list GenezioCloudInput) (result : GenezioCloudOutput) :
  resolve stackDetails input = Fulfilled result ->
  exists s others out outs,
    Stacks stackDetails = Some (s :: others)
    /\ Outputs s = Some (out :: outs)
    /\ classes result = List.map (resultClass (OutputValue out)) input.
Proof.
  unfold resolve. intros H.
  destruct (Stacks stackDetails) as [[| s others] |]; try discriminate.
  destruct (negb _ && negb _); [discriminate |].
  destruct (Outputs s) as [[| out outs] |] eqn:Hout; try discriminate.
  inversion H; subst. exists s, others, out, outs. repeat split; assumption.
Qed.

(** X12. A deploy that returns has ended on a description of the stack whose
    first stack has at least one output, and what it returns is one entry per
    bundled class, in the order of the input and under the name of the class,
    with the URLs formed from the value of that first output, whatever the key
    of the output is. *)
Theorem deploy_result_is_resolved_from_first_output :
  forall (W : Type) (b : Backend W) (w : W) (credentials : option string)
         (input : list GenezioCloudInput) (pc : ProjectConfiguration)
         (tr : list Event) (result : GenezioCloudOutput) (w' : W),
    run b (deploy credentials input pc) w = (tr, Fulfilled result, w') ->
    exists before stackDetails s others out outs,
      tr = (before
            ++ [Ev (DescribeStacksCommand (stackNameOf pc)) (Fulfilled stackDetails)])%list
      /\ Stacks stackDetails = Some (s :: others)
      /\ Outputs s = Some (out :: outs)
      /\ classes result = List.map (resultClass (OutputValue out)) input
      /\ List.map className (classes result) = List.map input_name input.
Proof.
  intros W b w credentials input pc tr result w' Hrun.
  destruct (deploy_inv b _ _ _ _ _ _ _ Hrun)
    as [(_ & _ & Hmissing) | (_ & tr1 & o1 & w1 & Hprep & H1)];
    [discriminate |].
  destruct o1 as [u1 | e1]; [| destruct H1 as [_ H]; discriminate].
  destruct H1 as (tr2 & o2 & w2 & Hsyn & H2).
  destruct o2 as [t | e2]; [| destruct H2 as [_ H]; discriminate].
  destruct H2 as (tr3 & o3 & w3 & Hupd & H3).
  destruct o3 as [u3 | e3]; [| destruct H3 as [_ H]; discriminate].
  destruct H3 as (r & -> & Hres).
  destruct r as [stackDetails | e4]; [| discriminate].
  symmetry in Hres.
  destruct (resolve_fulfilled_classes stackDetails input result Hres)
    as (s & others & out & outs & Hs & Hout & Hclasses).
  exists (tr1 ++ tr2 ++ tr3)%list, stackDetails, s, others, out, outs.
  repeat split; try assumption.
  - rewrite <- !app_assoc. reflexivity.
  - rewrite Hclasses, map_map. reflexivity.
Qed.

Lemma deploy_result_is_resolved_from_first_output_witness :
  let '(tr, o, _) :=
    run (cloud testSettings) (deploy (Some "AKIA") (shopInput "jsonrpc") (shop "jsonrpc"))
      (mkCloud true None) in
  exists result,
    o = Fulfilled result
    /\ exists before stackDetails s others out outs,
        tr = (before
              ++ [Ev (DescribeStacksCommand "genezio-shop") (Fulfilled stackDetails)])%list
        /\ Stacks stackDetails = Some (s :: others)
        /\ Outputs s = Some (out :: outs)
        /\ classes result = List.map (resultClass (OutputValue out)) (shopInput "jsonrpc")
        /\ List.map className (classes result) = List.map input_name (shopInput "jsonrpc").
Proof.
  destruct (run (cloud testSettings)
              (deploy (Some "AKIA") (shopInput "jsonrpc") (shop "jsonrpc"))
              (mkCloud true None)) as [[tr o] w'] eqn:Hrun.
  pose proof (fun result =>
                deploy_result_is_resolved_from_first_output Cloud (cloud testSettings)
                  (mkCloud true None) (Some "AKIA") (shopInput "jsonrpc") (shop "jsonrpc")
                  tr result w') as Hresolved.
  rewrite Hrun in Hresolved.
  vm_compute in Hrun. inversion Hrun; subst tr o w'; clear Hrun.
  eexists; split; [reflexivity |].
  exact (Hresolved _ eq_refl).
Defined.

Lemma append_assoc (a b c : string) : (a ++ b) ++ c = a ++ (b ++ c).
Proof. induction a as [| x a IH]; simpl; [reflexivity | rewrite IH; reflexivity]. Qed.

Lemma prefix_append (s t : string) : String.prefix s (s ++ t) = true.
Proof.
  induction s as [| a s IH]; simpl; [destruct t; reflexivity |].
  destruct (ascii_dec a a) as [_ | Hne]; [exact IH | contradiction].
Qed.

Lemma prefix_refl (s : string) : String.prefix s s = true.
Proof.
  induction s as [| a s IH]; simpl; [reflexivity |].
  destruct (ascii_dec a a) as [_ | Hne]; [exact IH | contradiction].
Qed.

(** X13. In the entry of a class, every method keeps its name, type and cron
    string; the URL of an http method is the URL of the class followed by a
    slash and the name of the method, and the URL of any other method is the
    URL of the class itself.  So the URL of the class is a prefix of the URL
    of each of its methods. *)
Theorem method_urls_extend_the_class_url :
  forall (apiGatewayUrl : option string) (inputItem : GenezioCloudInput),
    let entry := resultClass apiGatewayUrl inputItem in
    List.map result_method_name (result_methods entry)
    = List.map method_name (input_methods inputItem)
    /\ List.map result_method_type (result_methods entry)
       = List.map method_type (input_methods inputItem)
    /\ List.map result_method_cronString (result_methods entry)
       = List.map method_cronString (input_methods inputItem)
    /\ Forall (fun m =>
                 result_method_functionUrl m
                 = (if String.eqb (result_method_type m) "http"
                    then functionUrl entry ++ "/" ++ result_method_name m
                    else functionUrl entry)
                 /\ String.prefix (functionUrl entry) (result_method_functionUrl m) = true)
         (result_methods entry).
Proof.
  intros apiGatewayUrl inputItem entry. unfold entry, resultClass; simpl.
  rewrite !map_map; simpl.
  repeat split.
  apply Forall_forall. intros m Hin. apply in_map_iff in Hin.
  destruct Hin as (method & <- & _). simpl. unfold getFunctionUrl.
  destruct (String.eqb (method_type method) "http").
  - assert (H : interpolate apiGatewayUrl ++ "/" ++ input_name inputItem
                   ++ "/" ++ method_name method
                = (interpolate apiGatewayUrl ++ "/" ++ input_name inputItem)
                    ++ "/" ++ method_name method).
    { rewrite (append_assoc (interpolate apiGatewayUrl)). reflexivity. }
    rewrite H. split; [reflexivity | apply prefix_append].
  - split; [reflexivity | apply prefix_refl].
Qed.

(** ** The ids of a synthesized template *)

Lemma length_itemIds (pc : ProjectConfiguration) (inputItem : GenezioCloudInput) :
  List.length (itemIds pc inputItem)
  = 5 + List.length (httpMethods (classOf pc inputItem)).
Proof.
  unfold itemIds. simpl. rewrite length_app, length_map. simpl. lia.
Qed.

(** X14. The ids of a synthesized template do not depend on what the remote
    services answered: they are, class after class, the ids of the invoke
    permission, of one route per http method, of the catch-all route, of the
    integration, of the function and of the role, each made of a fixed prefix
    and the sanitized name of the class.  A class thus adds five resources
    and one per http method, also when it has no method at all, and the
    deployment of the built template depends on all these ids, in this order,
    and on the stage. *)
Theorem synthesized_ids_follow_the_classes :
  forall (W : Type) (b : Backend W) (w : W) (pc : ProjectConfiguration)
         (bucketName api : string) (input : list GenezioCloudInput) (tr : list Event)
         (builder : GenezioCloudFormationBuilder) (w' : W),
    run b (synthesize pc bucketName api input) w = (tr, Fulfilled builder, w') ->
    resourceIds builder = List.flat_map (itemIds pc) input
    /\ List.length (resourceIds builder)
       = 5 * List.length input
         + List.length (List.flat_map (fun i => httpMethods (classOf pc i)) input)
    /\ get_path ["Resources"; "ApiDeployment"; "DependsOn"]
         (template_value (built builder))
       = Some (Arr (List.map Str (List.flat_map (itemIds pc) input ++ ["ApiStage"])%list)).
Proof.
  intros W b w pc bucketName api input tr builder w' Hrun.
  unfold synthesize in Hrun.
  destruct (for_of_deployItem_fulfilled b _ _ _ _ _ _ _ _ _ Hrun) as (rs & Hsyn & ->).
  assert (Hids : resourceIds (addResources rs (newBuilder api))
                 = List.flat_map (itemIds pc) input).
  { rewrite resourceIds_addResources. simpl. eapply Synthesized_ids; eassumption. }
  split; [exact Hids |]. split.
  - rewrite Hids. clear. induction input as [| i tl IH]; [reflexivity |].
    cbn [flat_map]. rewrite !length_app, length_itemIds, IH. cbn [length]. lia.
  - unfold template_value, built; simpl.
    rewrite get_member_set_member_same; simpl. rewrite Hids. reflexivity.
Qed.

Lemma synthesized_ids_follow_the_classes_witness :
  let '(_, o, _) :=
    run (cloud testSettings)
      (synthesize (shop "jsonrpc") "bucket-us-east-1-shop" "ApiGatewayshop"
         (shopInput "jsonrpc"))
      (mkCloud true None) in
  exists builder,
    o = Fulfilled builder
    /\ resourceIds builder
       = ["LambdaInvokePermissionOrders"; "RouteOrdersinvoice"; "RouteOrders";
          "IntegrationOrders"; "LambdaFunctionOrders"; "RoleOrders"].
Proof.
  destruct (run (cloud testSettings)
              (synthesize (shop "jsonrpc") "bucket-us-east-1-shop" "ApiGatewayshop"
                 (shopInput "jsonrpc"))
              (mkCloud true None)) as [[tr o] w'] eqn:Hrun.
  pose proof (fun builder =>
                synthesized_ids_follow_the_classes Cloud (cloud testSettings)
                  (mkCloud true None) (shop "jsonrpc") "bucket-us-east-1-shop"
                  "ApiGatewayshop" (shopInput "jsonrpc") tr builder w') as Hids.
  rewrite Hrun in Hids.
  vm_compute in Hrun. inversion Hrun; subst tr o w'; clear Hrun.
  eexists; split; [reflexivity |].
  exact (proj1 (Hids _ eq_refl)).
Defined.

(** X15. The ids of one class are pairwise different as soon as its http
    methods have pairwise different names, none of them empty: within a class,
    ids can only clash through the names of the methods. *)
Theorem ids_of_one_class_are_distinct :
  forall (pc : ProjectConfiguration) (inputItem : GenezioCloudInput),
    NoDup (List.map method_name (httpMethods (classOf pc inputItem))) ->
    Forall (fun m => method_name m <> EmptyString) (httpMethods (classOf pc inputItem)) ->
    NoDup (itemIds pc inputItem).
Proof.
  intros pc inputItem Hnames Hnonempty. unfold itemIds.
  set (id := alphanumericString (input_name inputItem)).
  set (http := httpMethods (classOf pc inputItem)) in *.
  assert (Hdedicated : forall k, In k (List.map (fun m => ("Route" ++ id) ++ method_name m) http) ->
                         exists m, In m http /\ k = ("Route" ++ id) ++ method_name m).
  { intros k Hin. apply in_map_iff in Hin. destruct Hin as (m & <- & Hm).
    exists m; split; [exact Hm | reflexivity]. }
  apply NoDup_app.
  - repeat constructor. intros [].
  - apply NoDup_app.
    + clear Hdedicated. induction http as [| m tl IH]; simpl; [constructor |].
      simpl in Hnames. apply NoDup_cons_iff in Hnames. destruct Hnames as [Hm Htl].
      inversion Hnonempty; subst.
      constructor; [| apply IH; assumption].
      intros Hin. apply in_map_iff in Hin. destruct Hin as (m' & Heq & Hm').
      apply Hm. inversion Heq as [Heq']. apply append_inj_l in Heq'.
      rewrite <- Heq'. apply in_map. exact Hm'.
    + repeat constructor; simpl; intuition (try discriminate).
    + intros k Hin Hin'. destruct (Hdedicated k Hin) as (m & Hm & ->).
      simpl in Hin'. destruct Hin' as [H | [H | [H | [H | []]]]]; try discriminate.
      inversion H as [H']. symmetry in H'. apply append_eq_self in H'.
      rewrite Forall_forall in Hnonempty. exact (Hnonempty m Hm H').
  - intros k [<- | []] Hin. apply in_app_or in Hin. destruct Hin as [Hin | Hin].
    + destruct (Hdedicated _ Hin) as (m & _ & H). discriminate.
    + simpl in Hin. destruct Hin as [H | [H | [H | [H | []]]]]; discriminate.
Qed.

Lemma ids_of_one_class_are_distinct_witness :
  NoDup (List.map method_name
           (httpMethods (classOf (shop "jsonrpc")
                           (mkInput "Orders" "/tmp/o.zip" "orders.ts" []))))
  /\ NoDup (itemIds (shop "jsonrpc") (mkInput "Orders" "/tmp/o.zip" "orders.ts" [])).
Proof.
  assert (H : NoDup (List.map method_name
                       (httpMethods (classOf (shop "jsonrpc")
                                       (mkInput "Orders" "/tmp/o.zip" "orders.ts" []))))).
  { simpl. repeat constructor. intros []. }
  split; [exact H |].
  apply (ids_of_one_class_are_distinct (shop "jsonrpc")
           (mkInput "Orders" "/tmp/o.zip" "orders.ts" []) H).
  simpl. repeat constructor. discriminate.
Defined.

(** ** Failing calls *)

Lemma fail_fast_split (tr : list Event) (err : option JsError) :
  fail_fast tr err ->
  forall before e after x,
    tr = (before ++ e :: after)%list -> rejection e = Some x -> recovered e = false ->
    after = [] /\ err = Some x.
Proof.
  intros Hff before. revert tr Hff.
  induction before as [| e0 before IH]; intros tr Hff e after x -> Hrej Hrec; simpl in Hff.
  - rewrite Hrej, Hrec in Hff. exact Hff.
  - destruct (rejection e0) as [x0 |].
    + destruct (recovered e0).
      * eapply IH; [exact Hff | reflexivity | eassumption | assumption].
      * destruct Hff as [Hnil _]. destruct before; discriminate.
    + eapply IH; [exact Hff | reflexivity | eassumption | assumption].
Qed.

Lemma fail_fast_app (tr1 tr2 : list Event) (err : option JsError) :
  fail_fast tr1 None -> fail_fast tr2 err -> fail_fast (tr1 ++ tr2) err.
Proof.
  induction tr1 as [| e tr1 IH]; simpl; intros H1 H2; [exact H2 |].
  destruct (rejection e) as [x |].
  - destruct (recovered e); [apply IH; assumption |].
    destruct H1 as [_ H]. discriminate.
  - apply IH; assumption.
Qed.

Lemma prepareBucket_fail_fast {W : Type} (b : Backend W)
  (credentials : option string) (bucketName region : string)
  (w w' : W) (tr : list Event) (o : outcome unit) :
  run b (prepareBucket credentials bucketName region) w = (tr, o, w') ->
  fail_fast tr (error_of o).
Proof.
  intros Hrun. unfold prepareBucket, bucketForProjectExists in Hrun. simpl in Hrun.
  answer b Hrun; destruct credentials as [key |]; simpl in Hrun;
    repeat (answer b Hrun); inversion Hrun; subst; simpl; auto.
Qed.

Lemma deployItem_fail_fast {W : Type} (b : Backend W)
  (pc : ProjectConfiguration) (bucketName api : string) (inputItem : GenezioCloudInput)
  (t : GenezioCloudFormationBuilder) (w w' : W) (tr : list Event)
  (o : outcome GenezioCloudFormationBuilder) :
  run b (deployItem pc bucketName api inputItem t) w = (tr, o, w') ->
  fail_fast tr (error_of o).
Proof.
  intros Hrun. unfold deployItem, uploadZipToS3, getLatestObjectVersion in Hrun.
  simpl in Hrun.
  answer b Hrun; [| inversion Hrun; simpl; auto].
  answer b Hrun; [| inversion Hrun; simpl; auto].
  destruct (classOf pc inputItem) as [c |]; simpl in Hrun;
    [| inversion Hrun; simpl; auto].
  destruct (getFunctionRuntime (class_language c)) as [runtime | e];
    simpl in Hrun; [| inversion Hrun; simpl; auto].
  answer b Hrun; inversion Hrun; simpl; auto.
Qed.

Lemma for_of_fail_fast {W A S : Type} (b : Backend W) (body : A -> S -> Prog S) :
  (forall x s w tr o w', run b (body x s) w = (tr, o, w') -> fail_fast tr (error_of o)) ->
  forall (l : list A) (s : S) (w : W) tr o w',
    run b (for_of body l s) w = (tr, o, w') -> fail_fast tr (error_of o).
Proof.
  intros Hbody l. induction l as [| x tl IH]; intros s w tr o w' Hrun.
  - simpl in Hrun. inversion Hrun. exact I.
  - cbn [for_of] in Hrun. rewrite run_bind in Hrun.
    destruct (run b (body x s) w) as [[tr1 o1] w1] eqn:Hx.
    apply Hbody in Hx. destruct o1 as [s1 | e].
    + destruct (run b (for_of body tl s1) w1) as [[tr2 o2] w2] eqn:Htl.
      inversion Hrun; subst. apply fail_fast_app; [exact Hx | eapply IH; eassumption].
    + inversion Hrun; subst. exact Hx.
Qed.

Lemma converge_fail_fast {W : Type} (b : Backend W) (probe : StackProbe)
  (template stackName : string) (w w' : W) (tr : list Event) (o : outcome unit) :
  run b (converge probe template stackName) w = (tr, o, w') ->
  fail_fast tr (error_of o).
Proof.
  intros Hrun. destruct probe as [[|] status]; unfold converge in Hrun; simpl in Hrun;
    [destruct (status_is status "ROLLBACK_COMPLETE"); simpl in Hrun |];
    repeat (answer b Hrun); inversion Hrun; subst; simpl; auto.
Qed.

Lemma updateStack_fail_fast {W : Type} (b : Backend W) (template stackName : string)
  (w w' : W) (tr : list Event) (o : outcome unit) :
  run b (updateStack template stackName) w = (tr, o, w') ->
  fail_fast tr (error_of o).
Proof.
  intros Hrun. unfold updateStack in Hrun.
  rewrite run_bind, run_checkIfStackExists in Hrun.
  destruct (b (DescribeStacksCommand stackName) w) as [reply w1]; simpl in Hrun.
  destruct (probeOf stackName reply) as [probe | e1] eqn:Hprobe.
  - destruct (run b (converge probe template stackName) w1) as [[tr2 o2] w2] eqn:Hconv.
    inversion Hrun; subst tr o w'; clear Hrun.
    apply converge_fail_fast in Hconv.
    destruct reply as [stack | e0]; simpl; [exact Hconv |].
    unfold rejection; simpl. simpl in Hprobe. unfold describeFailed in Hprobe.
    destruct (String.eqb (err_message e0) _); [exact Hconv | discriminate].
  - inversion Hrun; subst tr o w'; clear Hrun.
    destruct reply as [stack | e0]; simpl in Hprobe; [discriminate |].
    simpl. unfold rejection; simpl. unfold describeFailed in Hprobe.
    destruct (String.eqb (err_message e0) _); [discriminate |].
    inversion Hprobe; subst. auto.
Qed.

(** X16. Deploy fails fast and keeps the error: apart from a rejected bucket
    probe and from a describe call rejected with the stack-not-found message,
    a rejected call is the last call of the run, and deploy throws the very
    error that call was rejected with. *)
Theorem deploy_stops_at_the_first_failing_call :
  forall (W : Type) (b : Backend W) (w : W) (credentials : option string)
         (input : list GenezioCloudInput) (pc : ProjectConfiguration)
         (tr : list Event) (o : outcome GenezioCloudOutput) (w' : W)
         (before after : list Event) (e : Event) (err : JsError),
    run b (deploy credentials input pc) w = (tr, o, w') ->
    tr = (before ++ e :: after)%list ->
    rejection e = Some err ->
    recovered e = false ->
    after = [] /\ o = Rejected err.
Proof.
  intros W b w credentials input pc tr o w' before after e err Hrun Htr Hrej Hrec.
  assert (Hff : fail_fast tr (error_of o)).
  { destruct (deploy_inv b _ _ _ _ _ _ _ Hrun)
      as [(_ & -> & ->) | (_ & tr1 & o1 & w1 & Hprep & H1)];
      [exact I |].
    apply prepareBucket_fail_fast in Hprep.
    destruct o1 as [u1 | e1]; [| destruct H1 as [-> ->]; exact Hprep].
    destruct H1 as (tr2 & o2 & w2 & Hsyn & H2).
    unfold synthesize in Hsyn.
    apply (for_of_fail_fast b _ (fun x s w0 tr0 o0 w0' H =>
                                   deployItem_fail_fast b _ _ _ x s w0 w0' tr0 o0 H))
      in Hsyn.
    destruct o2 as [t | e2];
      [| destruct H2 as [-> ->]; apply fail_fast_app; assumption].
    destruct H2 as (tr3 & o3 & w3 & Hupd & H3).
    apply updateStack_fail_fast in Hupd.
    destruct o3 as [u3 | e3].
    - destruct H3 as (r & -> & ->).
      repeat (apply fail_fast_app; [assumption |]).
      destruct r as [stackDetails | e4]; simpl; [exact I |].
      unfold rejection; simpl.
      destruct (String.eqb (err_message e4) _); auto.
    - destruct H3 as [-> ->]. repeat (apply fail_fast_app; [assumption |]). exact Hupd. }
  destruct (fail_fast_split tr (error_of o) Hff before e after err Htr Hrej Hrec)
    as [Hafter Herr].
  split; [exact Hafter |].
  destruct o as [a | e']; simpl in Herr; [discriminate | congruence].
Qed.

Lemma deploy_stops_at_the_first_failing_call_witness :
  run (readOnlyCloud testSettings)
    (deploy (Some "AKIA") (shopInput "jsonrpc") (shop "jsonrpc")) (mkCloud true None)
  = ([Ev (headBucket "bucket-us-east-1-shop") (Fulfilled tt);
      Ev (readFileSync "/tmp/genezio-orders/genezioDeploy.zip") (Fulfilled "PK")]
     ++ Ev (PutObjectCommand "PK" "bucket-us-east-1-shop" "genezio-shop/lambda-Orders.zip")
          (Rejected accessDenied) :: [],
     Rejected accessDenied, mkCloud true None)%list
  /\ (@nil Event = [] /\ @Rejected GenezioCloudOutput accessDenied = Rejected accessDenied).
Proof.
  split; [reflexivity |].
  apply (deploy_stops_at_the_first_failing_call Cloud (readOnlyCloud testSettings)
           (mkCloud true None) (Some "AKIA") (shopInput "jsonrpc") (shop "jsonrpc")
           ([Ev (headBucket "bucket-us-east-1-shop") (Fulfilled tt);
             Ev (readFileSync "/tmp/genezio-orders/genezioDeploy.zip") (Fulfilled "PK")]
            ++ Ev (PutObjectCommand "PK" "bucket-us-east-1-shop"
                     "genezio-shop/lambda-Orders.zip") (Rejected accessDenied) :: [])%list
           (Rejected accessDenied) (mkCloud true None)
           [Ev (headBucket "bucket-us-east-1-shop") (Fulfilled tt);
            Ev (readFileSync "/tmp/genezio-orders/genezioDeploy.zip") (Fulfilled "PK")]
           []
           (Ev (PutObjectCommand "PK" "bucket-us-east-1-shop"
                  "genezio-shop/lambda-Orders.zip") (Rejected accessDenied))
           accessDenied); reflexivity.
Defined.

(** * The reporter *)

Lemma append_nil_r (s : string) : s ++ "" = s.
Proof. induction s as [| c s IH]; simpl; [reflexivity | rewrite IH; reflexivity]. Qed.

Lemma glue_app (l1 l2 : list string) : glue (l1 ++ l2) = glue l1 ++ glue l2.
Proof.
  induction l1 as [| x l1 IH]; simpl; [reflexivity |].
  rewrite IH, append_assoc. reflexivity.
Qed.

Lemma fold_left_append_if {A : Type} (p : A -> bool) (f : A -> string)
  (l : list A) (acc : string) :
  List.fold_left (fun acc x => if p x then acc ++ f x else acc) l acc
  = acc ++ glue (List.map f (List.filter p l)).
Proof.
  revert acc. induction l as [| x l IH]; intros acc; simpl.
  - rewrite append_nil_r. reflexivity.
  - rewrite IH. destruct (p x); simpl; [rewrite append_assoc |]; reflexivity.
Qed.

Lemma glue_starts_with (c : ascii) (line : string) (lines : list string) :
  glue (String c line :: lines) <> "".
Proof. simpl. discriminate. Qed.

Lemma printHttpString_of_classes (http : string) (yellow : string -> string)
  (classesInfo : list GenezioCloudResultClass) (acc : string) :
  List.fold_left
    (fun printHttpString classInfo =>
       List.fold_left
         (fun printHttpString method =>
            if String.eqb (result_method_type method) http
            then printHttpString ++ httpLine yellow classInfo method
            else printHttpString)
         (result_methods classInfo) printHttpString)
    classesInfo acc
  = acc ++ glue (httpLines http yellow classesInfo).
Proof.
  revert acc. induction classesInfo as [| c cs IH]; intros acc; simpl.
  - rewrite append_nil_r. reflexivity.
  - rewrite IH.
    rewrite (fold_left_append_if
               (fun method => String.eqb (result_method_type method) http)
               (httpLine yellow c)).
    unfold httpLines; simpl. rewrite glue_app, append_assoc. reflexivity.
Qed.

(** X17. [reportSuccess] logs nothing when no method of no class is an http
    method.  Otherwise it logs an empty line, the title "HTTP Methods
    Deployed:" and one text made of one line per http method, class after
    class and in the order of the methods, each line naming the class, the
    method and the coloured URL. *)
Theorem reportSuccess_lists_the_http_methods :
  forall (http : string) (yellow : string -> string)
         (classesInfo : list GenezioCloudResultClass),
    reportSuccess http yellow classesInfo
    = match httpLines http yellow classesInfo with
      | [] => []
      | lines => [""; "HTTP Methods Deployed:"; glue lines]
      end.
Proof.
  intros http yellow classesInfo. unfold reportSuccess.
  rewrite printHttpString_of_classes. simpl.
  destruct (httpLines http yellow classesInfo) as [| line lines] eqn:Hlines;
    [reflexivity |].
  assert (Hline : exists c tl, line = String c tl).
  { assert (Hin : In line (httpLines http yellow classesInfo))
      by (rewrite Hlines; left; reflexivity).
    unfold httpLines in Hin. apply in_flat_map in Hin.
    destruct Hin as (cls & _ & Hin). apply in_map_iff in Hin.
    destruct Hin as (m & <- & _). unfold httpLine. simpl. eexists _, _; reflexivity. }
  destruct Hline as (c & tl & ->).
  destruct (String.eqb (glue (String c tl :: lines)) "") eqn:E; [| reflexivity].
  apply String.eqb_eq in E. exfalso. exact (glue_starts_with c tl lines E).
Qed.

(** X18. [reportSuccessFunctions] logs nothing for no function, and otherwise
    an empty line, the title "Functions Deployed:" and one text with one line
    per function, in order, with its name and its coloured URL. *)
Theorem reportSuccessFunctions_lists_the_functions :
  forall (yellow : string -> string) (functions : list DeployCodeFunctionResponse),
    reportSuccessFunctions yellow functions
    = match functions with
      | [] => []
      | _ => [""; "Functions Deployed:"; glue (List.map (functionLine yellow) functions)]
      end.
Proof.
  intros yellow functions. unfold reportSuccessFunctions.
  rewrite (fold_left_append_if (fun _ => true) (functionLine yellow) functions "").
  simpl.
  assert (Hfilter : List.filter (fun _ : DeployCodeFunctionResponse => true) functions
                    = functions).
  { clear. induction functions as [| f fs IH]; simpl; [reflexivity | rewrite IH; reflexivity]. }
  rewrite Hfilter.
  destruct functions as [| f fs]; [reflexivity |].
  destruct (String.eqb (glue (List.map (functionLine yellow) (f :: fs))) "") eqn:E;
    [| reflexivity].
  apply String.eqb_eq in E. simpl in E. discriminate.
Qed.

(** * The CDN *)

(** X19. Whatever the backend answers, the URL [deployCDN] returns starts
    with http:// or https://: the domain the backend answered, as it is when
    it has one of these schemes, and behind https:// otherwise.  The request
    was sent before, for the domain, the project, the region and the stage
    given, with the server function as default origin, and its paths start
    with the three routes of the server and of the image optimizer. *)
Theorem deployCDN_returns_a_url_with_a_scheme :
  forall (computeAssetsPaths : CreateFrontendV2Origin -> outcome (list CreateFrontendV2Path))
         (createFrontendProjectV2 : CreateFrontendV2Request -> outcome string)
         (deployedFunctions : list DeployCodeFunctionResponse)
         (domainName configName configRegion stage url : string),
    cdn_returned (deployCDN computeAssetsPaths createFrontendProjectV2 deployedFunctions
                    domainName configName configRegion stage) = Fulfilled url ->
    (String.prefix "https://" url = true \/ String.prefix "http://" url = true)
    /\ exists request distributionUrl,
        cdn_request (deployCDN computeAssetsPaths createFrontendProjectV2 deployedFunctions
                       domainName configName configRegion stage) = Some request
        /\ createFrontendProjectV2 request = Fulfilled distributionUrl
        /\ (url = distributionUrl \/ url = "https://" ++ distributionUrl)
        /\ (String.prefix "https://" distributionUrl = true
            \/ String.prefix "http://" distributionUrl = true -> url = distributionUrl)
        /\ request_domainName request = domainName
        /\ request_projectName request = configName
        /\ request_region request = configRegion
        /\ request_stage request = stage
        /\ domain_id (origin_domain (request_defaultPath request))
           = functionIdOf "function-server" deployedFunctions
        /\ List.map path_pattern (List.firstn 3 (request_paths request))
           = ["api/*"; "_next/data/*"; "_next/image*"].
Proof.
  intros computeAssetsPaths createFrontendProjectV2 deployedFunctions
    domainName configName configRegion stage url.
  unfold deployCDN.
  destruct (computeAssetsPaths _) as [assets | e]; simpl; [| discriminate].
  match goal with
  | |- context [createFrontendProjectV2 ?r] =>
      destruct (createFrontendProjectV2 r) as [distributionUrl | e] eqn:Hreply
  end; simpl; [| discriminate].
  intros Hurl. injection Hurl as Hurl'. subst url.
  split.
  { destruct (String.prefix "https://" distributionUrl) eqn:Hs; cbn [negb andb];
      [left; exact Hs |].
    destruct (String.prefix "http://" distributionUrl) eqn:Hp; cbn [negb andb];
      [right; exact Hp |].
    left. apply (prefix_append "https://" distributionUrl). }
  eexists _, distributionUrl. split; [reflexivity |]. split; [exact Hreply |].
  split; [| split; [| repeat split; reflexivity]].
  - destruct (negb _ && negb _); [right | left]; reflexivity.
  - intros Hhas.
    destruct (String.prefix "https://" distributionUrl);
      destruct (String.prefix "http://" distributionUrl); cbn [negb andb];
      try reflexivity.
    destruct Hhas; discriminate.
Qed.

Lemma deployCDN_returns_a_url_with_a_scheme_witness :
  cdn_returned
    (deployCDN (fun _ => Fulfilled []) (fun _ => Fulfilled "d111.cloudfront.net")
       [mkFunctionResponse "function-server" "f-1" "https://f-1.example"]
       "shop.app.genez.io" "shop" "us-east-1" "prod")
  = Fulfilled "https://d111.cloudfront.net"
  /\ (String.prefix "https://" "https://d111.cloudfront.net" = true
      \/ String.prefix "http://" "https://d111.cloudfront.net" = true).
Proof.
  split; [reflexivity |].
  apply (deployCDN_returns_a_url_with_a_scheme
           (fun _ => Fulfilled []) (fun _ => Fulfilled "d111.cloudfront.net")
           [mkFunctionResponse "function-server" "f-1" "https://f-1.example"]
           "shop.app.genez.io" "shop" "us-east-1" "prod" "https://d111.cloudfront.net").
  reflexivity.
Defined.

(** * The gateway *)

Lemma get_member_addResources_other (rs : list (string * value)) (k : string) :
  forall b : GenezioCloudFormationBuilder,
    ~ In k (List.map fst rs) ->
    get_member k (Resources (template (addResources rs b)))
    = get_member k (Resources (template b)).
Proof.
  induction rs as [| [name content] tl IH]; intros b Hnotin; [reflexivity |].
  unfold addResources in *; simpl. rewrite IH.
  - simpl. apply get_member_set_member_other. intros ->. apply Hnotin. left; reflexivity.
  - intros Hin. apply Hnotin. right; exact Hin.
Qed.

(** X20. However the classes and their methods are named, no resource of a
    class takes the place of the API gateway: the built template of a
    synthesis that went through still holds, under the id of the gateway, the
    HTTP API the builder started with. *)
Theorem gateway_survives_synthesis :
  forall (W : Type) (b : Backend W) (w : W) (pc : ProjectConfiguration)
         (bucketName : string) (input : list GenezioCloudInput) (tr : list Event)
         (builder : GenezioCloudFormationBuilder) (w' : W),
    run b (synthesize pc bucketName (apiGatewayResourceNameOf pc) input) w
    = (tr, Fulfilled builder, w') ->
    get_path ["Resources"; apiGatewayResourceNameOf pc] (template_value (built builder))
    = get_path ["Resources"; apiGatewayResourceNameOf pc]
        (template_value (template (newBuilder (apiGatewayResourceNameOf pc))))
    /\ get_path ["Resources"; apiGatewayResourceNameOf pc; "Type"]
         (template_value (built builder))
       = Some (Str "AWS::ApiGatewayV2::Api")
    /\ get_path ["Resources"; apiGatewayResourceNameOf pc; "Properties"; "ProtocolType"]
         (template_value (built builder))
       = Some (Str "HTTP").
Proof.
  intros W b w pc bucketName input tr builder w' Hrun.
  unfold synthesize in Hrun.
  destruct (for_of_deployItem_fulfilled b _ _ _ _ _ _ _ _ _ Hrun) as (rs & Hsyn & ->).
  assert (Hget : get_member (apiGatewayResourceNameOf pc)
                   (Resources (built (addResources rs
                                        (newBuilder (apiGatewayResourceNameOf pc)))))
                 = get_member (apiGatewayResourceNameOf pc)
                     (Resources (template (newBuilder (apiGatewayResourceNameOf pc))))).
  { unfold built. cbn [Resources set_resource].
    rewrite !get_member_set_member_other by discriminate.
    apply get_member_addResources_other.
    apply class_id_not_in; [eapply Synthesized_class_ids; eassumption |].
    simpl. intros H; apply H; reflexivity. }
  rewrite !get_path_resource, Hget. simpl. rewrite String.eqb_refl.
  repeat split; reflexivity.
Qed.

Lemma gateway_survives_synthesis_witness :
  let '(_, o, _) :=
    run (cloud testSettings)
      (synthesize (shop "jsonrpc") "bucket-us-east-1-shop"
         (apiGatewayResourceNameOf (shop "jsonrpc")) (shopInput "jsonrpc"))
      (mkCloud true None) in
  exists builder,
    o = Fulfilled builder
    /\ get_path ["Resources"; "ApiGatewayshop"; "Type"] (template_value (built builder))
       = Some (Str "AWS::ApiGatewayV2::Api").
Proof.
  destruct (run (cloud testSettings)
              (synthesize (shop "jsonrpc") "bucket-us-east-1-shop"
                 (apiGatewayResourceNameOf (shop "jsonrpc")) (shopInput "jsonrpc"))
              (mkCloud true None)) as [[tr o] w'] eqn:Hrun.
  pose proof (fun builder =>
                gateway_survives_synthesis Cloud (cloud testSettings) (mkCloud true None)
                  (shop "jsonrpc") "bucket-us-east-1-shop" (shopInput "jsonrpc")
                  tr builder w') as Hgateway.
  rewrite Hrun in Hgateway.
  vm_compute in Hrun. inversion Hrun; subst tr o w'; clear Hrun.
  eexists; split; [reflexivity |].
  exact (proj1 (proj2 (Hgateway _ eq_refl))).
Defined.

(** * The languages *)

(** X21. The command and the adapter know the same languages: [deployClasses]
    has a bundler for a language exactly when the adapter has a runtime for
    it, so a class that was bundled can always be given a runtime, and
    TypeScript and JavaScript classes both run on nodejs14.x. *)
Theorem bundlers_and_runtimes_cover_the_same_languages :
  forall language : string,
    ((exists bundler, selectBundler language = Fulfilled bundler)
     <-> (exists runtime, getFunctionRuntime language = Fulfilled runtime))
    /\ (selectBundler language = Fulfilled NodeTsBundlers
        \/ selectBundler language = Fulfilled NodeJsBundlers
        <-> getFunctionRuntime language = Fulfilled "nodejs14.x")
    /\ (selectBundler language = Fulfilled DartBundler
        <-> getFunctionRuntime language = Fulfilled "provided.al2").
Proof.
  intros language. unfold selectBundler, getFunctionRuntime.
  destruct (String.eqb language ".ts") eqn:Ets;
    destruct (String.eqb language ".js") eqn:Ejs;
    destruct (String.eqb language ".dart") eqn:Edart;
    repeat split;
    try (intros [x H]; try discriminate; eexists; reflexivity);
    try (intros [H | H]; try discriminate; reflexivity);
    try (intros H; try discriminate; first [reflexivity | left; reflexivity | right; reflexivity]).
Qed.
